(** * Stock-analysis agents: a shallow embedding of the analysis pipeline

    The development follows the two agents of the repository,
    [agents/data_collector_agent.py] and [agents/analysis_agent.py].

    Conventions of the embedding.

    - A Python [str] is a list of characters.  The reply of the
      text-generation service is taken to be ASCII text (code points below
      128): [str.upper] then acts on the letters a-z only and keeps the
      length of the text, and [str.strip] removes the ASCII white space
      (code points 9-13, 28-31 and 32).
    - A Python [dict] whose keys vary from one run to the next (the agents'
      results, the technical indicators, a chart point) is a [gmap] from
      strings to JSON-like values.
    - A float is an exact rational or one of the IEEE special values
      (infinities, NaN).  Division by zero follows IEEE 754 (no exception is
      raised by pandas); rounding is not modelled, and neither is the sign of
      a zero.
    - The collaborators that live outside the two source files (the market
      data, news and fundamentals providers, the text-generation service,
      the period table, the clock, pandas' date parser) are parameters. *)

From Stdlib Require Import Ascii String QArith Lqa Qfield.
From stdpp Require Import base option strings list gmap.

Local Open Scope string_scope.
Local Open Scope list_scope.

(** ** Python strings *)

Module PyStr.

Definition str := list ascii.

Definition py (s : string) : str := list_ascii_of_string s.

Definition is_lower (c : ascii) : bool :=
  (97 <=? nat_of_ascii c)%nat && (nat_of_ascii c <=? 122)%nat.

Definition upper_char (c : ascii) : ascii :=
  if is_lower c then ascii_of_nat (nat_of_ascii c - 32) else c.

(** [s.upper()] *)
Definition upper (s : str) : str := upper_char <$> s.

(** [c.isspace()] on ASCII *)
Definition is_space (c : ascii) : bool :=
  let n := nat_of_ascii c in
  ((9 <=? n)%nat && (n <=? 13)%nat) || ((28 <=? n)%nat && (n <=? 32)%nat).

Fixpoint lstrip (s : str) : str :=
  match s with
  | [] => []
  | c :: s' => if is_space c then lstrip s' else s
  end.

Fixpoint rstrip (s : str) : str :=
  match s with
  | [] => []
  | c :: s' =>
      match rstrip s' with
      | [] => if is_space c then [] else [c]
      | r => c :: r
      end
  end.

(** [s.strip()] *)
Definition strip (s : str) : str := rstrip (lstrip s).

(** [s[a:b]] for non-negative bounds *)
Definition slice (s : str) (a b : nat) : str := take (b - a) (drop a s).

(** [s.startswith(p)] *)
Fixpoint startswith (p s : str) : bool :=
  match p, s with
  | [], _ => true
  | _ :: _, [] => false
  | a :: p', b :: s' => if ascii_dec a b then startswith p' s' else false
  end.

(** [s.find(p)]; [None] stands for the result -1 *)
Fixpoint find (p s : str) : option nat :=
  if startswith p s then Some 0%nat
  else match s with
       | [] => None
       | _ :: s' => S <$> find p s'
       end.

(** [p in s] *)
Definition contains (p s : str) : bool := bool_decide (is_Some (find p s)).

End PyStr.

Import PyStr.

(** ** Recommendation and confidence extraction
    ([AnalysisAgent.process], the block after the call to the
    text-generation service) *)

Module Extraction.

Definition rec_patterns : list str :=
  [py "RECOMMENDATION:"; py "**RECOMMENDATION:**"; py "RECOMMENDATION"].

Definition conf_patterns : list str :=
  [py "CONFIDENCE:"; py "**CONFIDENCE:**"; py "CONFIDENCE"].

(** [analysis[idx + len(pattern):idx + len(pattern) + n].strip()] *)
Definition part (analysis pattern : str) (idx n : nat) : str :=
  strip (slice analysis (idx + length pattern) (idx + length pattern + n)).

(** The [for pattern in rec_patterns] loop; [recommendation] is the value
    the variable holds when the loop is entered. *)
Fixpoint rec_loop (analysis analysis_upper : str) (patterns : list str)
    (recommendation : string) : string :=
  match patterns with
  | [] => recommendation
  | pattern :: rest =>
      match find (upper pattern) analysis_upper with
      | Some idx =>
          let rec_part := part analysis pattern idx 100 in
          if contains (py "BUY") (take 30 rec_part) then "BUY"
          else if contains (py "SELL") (take 30 rec_part) then "SELL"
          else if contains (py "HOLD") (take 30 rec_part) then "HOLD"
          else rec_loop analysis analysis_upper rest recommendation
      | None => rec_loop analysis analysis_upper rest recommendation
      end
  end.

(** The [for pattern in conf_patterns] loop. *)
Fixpoint conf_loop (analysis analysis_upper : str) (patterns : list str)
    (confidence : string) : string :=
  match patterns with
  | [] => confidence
  | pattern :: rest =>
      match find (upper pattern) analysis_upper with
      | Some idx =>
          let conf_part := part analysis pattern idx 50 in
          if contains (py "HIGH") (take 15 conf_part) then "HIGH"
          else if contains (py "MEDIUM") (take 15 conf_part) then "MEDIUM"
          else if contains (py "LOW") (take 15 conf_part) then "LOW"
          else conf_loop analysis analysis_upper rest confidence
      | None => conf_loop analysis analysis_upper rest confidence
      end
  end.

Definition extract_recommendation (analysis : str) : string :=
  let recommendation := "HOLD" in
  let analysis_upper := upper analysis in
  rec_loop analysis analysis_upper rec_patterns recommendation.

Definition extract_confidence (analysis : str) : string :=
  let confidence := "LOW" in
  let analysis_upper := upper analysis in
  conf_loop analysis analysis_upper conf_patterns confidence.

End Extraction.

Import Extraction.

(** ** Floats: exact rationals with the IEEE special values *)

Module Float.

Inductive float := Fin (q : Q) | Inf (neg : bool) | NaN.

Definition Qlt_bool (x y : Q) : bool := negb (Qle_bool y x).

Definition isna (x : float) : bool :=
  match x with NaN => true | _ => false end.

Definition fneg (x : float) : float :=
  match x with
  | Fin q => Fin (- q)%Q
  | Inf s => Inf (negb s)
  | NaN => NaN
  end.

Definition fadd (x y : float) : float :=
  match x, y with
  | NaN, _ | _, NaN => NaN
  | Fin a, Fin b => Fin (a + b)%Q
  | Fin _, Inf s | Inf s, Fin _ => Inf s
  | Inf s, Inf t => if Bool.eqb s t then Inf s else NaN
  end.

Definition fsub (x y : float) : float := fadd x (fneg y).

(** IEEE division: a non-zero number over zero is an infinity, zero over
    zero and infinity over infinity are NaN. *)
Definition fdiv (x y : float) : float :=
  match x, y with
  | NaN, _ | _, NaN => NaN
  | Fin a, Fin b =>
      if Qeq_bool b 0 then
        if Qeq_bool a 0 then NaN else Inf (Qlt_bool a 0)
      else Fin (a / b)%Q
  | Fin _, Inf _ => Fin 0
  | Inf s, Fin b => Inf (xorb s (Qlt_bool b 0))
  | Inf _, Inf _ => NaN
  end.

(** [x > y]; any comparison with NaN is false. *)
Definition fgt (x y : float) : bool :=
  match x, y with
  | NaN, _ | _, NaN => false
  | Fin a, Fin b => Qlt_bool b a
  | Fin _, Inf s => s
  | Inf s, Fin _ => negb s
  | Inf s, Inf t => negb s && t
  end.

Definition flt (x y : float) : bool := fgt y x.

Definition of_nat (n : nat) : float := Fin (inject_Z (Z.of_nat n)).

Definition fsum (xs : list float) : float := foldl fadd (Fin 0) xs.

(** Equality of floats as numbers; NaN is related to nothing. *)
Definition feq (x y : float) : Prop :=
  match x, y with
  | Fin a, Fin b => (a == b)%Q
  | Inf s, Inf t => s = t
  | _, _ => False
  end.

(** [lo <= x <= hi] for a finite [x]. *)
Definition between (lo hi : Q) (x : float) : Prop :=
  match x with
  | Fin a => (lo <= a)%Q /\ (a <= hi)%Q
  | _ => False
  end.

End Float.

Import Float.

(** ** The pandas operations the analysis uses, on a [Series] of floats *)

Module Pandas.

Abbreviation Series := (list float).

(** [s.mean()]: missing values are skipped; the mean of nothing is NaN. *)
Definition mean (s : Series) : float :=
  let xs := filter (fun x => isna x = false) s in
  fdiv (fsum xs) (of_nat (length xs)).

(** [s.rolling(window=w).mean()]: NaN until the window is full and
    whenever the window holds a missing value. *)
Definition rolling_mean (w : nat) (s : Series) : Series :=
  imap (fun i _ =>
          if (i + 1 <? w)%nat then NaN
          else
            let win := take w (drop (i + 1 - w) s) in
            if existsb isna win then NaN else fdiv (fsum win) (of_nat w))
       s.

(** [s.diff()] *)
Definition diff (s : Series) : Series :=
  imap (fun i x =>
          match i with
          | O => NaN
          | S j => match s !! j with Some y => fsub x y | None => NaN end
          end)
       s.

(** [s.where(cond, other)] with [cond] given elementwise *)
Definition where_ (cond : float -> bool) (other : float) (s : Series) : Series :=
  (fun x => if cond x then x else other) <$> s.

(** [-s] *)
Definition neg (s : Series) : Series := fneg <$> s.

(** [a / b] *)
Definition div (a b : Series) : Series := zip_with fdiv a b.

(** [s.iloc[-1]]; [None] when pandas raises IndexError *)
Definition iloc_last (s : Series) : option float := last s.

(** [s.iloc[-k:]] *)
Definition iloc_tail (k : nat) (s : Series) : Series := drop (length s - k) s.

(** [s.iloc[-a:-b]] *)
Definition iloc_between (a b : nat) (s : Series) : Series :=
  take ((length s - b) - (length s - a)) (drop (length s - a) s).

End Pandas.

Import Pandas.

(** ** JSON-like values and dictionaries *)

#[warnings="-register-all"]
Inductive value :=
  | VNone
  | VBool (b : bool)
  | VInt (z : Z)
  | VFloat (x : float)
  | VStr (s : string)
  | VList (l : list value)
  | VDict (d : gmap string value).

Abbreviation dict := (gmap string value).

(** One record of the price series, as the market-data provider returns it. *)
Record Row := {
  Date : string;
  Open : Q;
  High : Q;
  Low : Q;
  Close : Q;
  Volume : Z
}.

Definition row_value (row : Row) : value :=
  VDict {[ "Date" := VStr (Date row);
           "Open" := VFloat (Fin (Open row));
           "High" := VFloat (Fin (High row));
           "Low" := VFloat (Fin (Low row));
           "Close" := VFloat (Fin (Close row));
           "Volume" := VInt (Volume row) ]}.

(** ** The agent contract *)

Module BaseAgent.

(** A call to a collaborator outside the agent. *)
Inductive call :=
  | FetchStockData (symbol period : string)
  | FetchNews (symbol : string)
  | GetStockFundamentals (symbol : string)
  | CallOllama (prompt system_prompt : string).

(** Modelled from the spec: agents/base_agent.py is not among the source
    files.  An agent holds a status label (initially idle), its last
    result and its last error; [calls] records, in order, the
    collaborators it has invoked. *)
Record agent := {
  name : string;
  status : string;
  result : option dict;
  error : option string;
  calls : list call
}.

Definition init (name : string) : agent :=
  {| name := name; status := "idle"; result := None; error := None;
     calls := [] |}.

(** A Python computation either returns or raises; an exception is kept
    as its message [str(e)]. *)
Inductive outcome (A : Type) :=
  | Return (a : A)
  | Raise (msg : string).
Arguments Return {A} a.
Arguments Raise {A} msg.

Definition obind {A B} (o : outcome A) (k : A -> outcome B) : outcome B :=
  match o with
  | Return a => k a
  | Raise msg => Raise msg
  end.

Definition M (A : Type) : Type := agent -> outcome A * agent.

Definition ret {A} (a : A) : M A := fun self => (Return a, self).

Definition bind {A B} (m : M A) (k : A -> M B) : M B :=
  fun self =>
    match m self with
    | (Return a, self') => k a self'
    | (Raise msg, self') => (Raise msg, self')
    end.

Definition raise {A} (msg : string) : M A := fun self => (Raise msg, self).

(** The result of a collaborator, or of a partial operation. *)
Definition lift {A} (o : outcome A) : M A := fun self => (o, self).

(** [d[key]] on an optional field: KeyError prints as the quoted key. *)
Definition getitem {A} (key : string) (o : option A) : M A :=
  match o with
  | Some a => ret a
  | None => raise ("'" +:+ key +:+ "'")
  end.

(** Modelled from the spec: [update_status(label)] records a free-text
    progress label; it has no other effect. *)
Definition update_status (label : string) : M unit :=
  fun self =>
    (Return tt,
     {| name := name self; status := label; result := result self;
        error := error self; calls := calls self |}).

Definition set_error (msg : string) : M unit :=
  fun self =>
    (Return tt,
     {| name := name self; status := status self; result := result self;
        error := Some msg; calls := calls self |}).

Definition set_result (r : dict) : M unit :=
  fun self =>
    (Return tt,
     {| name := name self; status := status self; result := Some r;
        error := error self; calls := calls self |}).

(** Invoking a collaborator: the call is recorded, then its answer is
    returned or its exception propagates. *)
Definition invoke {A} (c : call) (answer : outcome A) : M A :=
  fun self =>
    (answer,
     {| name := name self; status := status self; result := result self;
        error := error self; calls := calls self ++ [c] |}).

(** [try: body except Exception as e: handler(str(e))] *)
Definition try_except {A} (body : M A) (handler : string -> M A) : M A :=
  fun self =>
    match body self with
    | (Return a, self') => (Return a, self')
    | (Raise msg, self') => handler msg self'
    end.

Definition failure (msg : string) : dict :=
  {[ "success" := VBool false; "error" := VStr msg ]}.

End BaseAgent.

Import BaseAgent.

Notation "x <~ m ; k" := (bind m (fun x => k))
  (at level 20, m at level 100, k at level 200, only parsing).
Notation "x <~~ o ; k" := (obind o (fun x => k))
  (at level 20, o at level 100, k at level 200, only parsing).

(** ** The analysis stage *)

Module AnalysisAgent.

Definition system_prompt : string := "
        You are a senior financial analyst with extensive experience in equity research and stock market analysis.
        Your expertise includes technical analysis, fundamental analysis, quantitative methods, and market sentiment evaluation.
        
        Your analytical approach should:
        - Be thorough, objective, and data-driven
        - Consider multiple timeframes and perspectives
        - Identify both bullish and bearish factors
        - Assess risk-reward ratios appropriately
        - Consider market context and sector dynamics
        - Be transparent about data limitations and uncertainties
        
        When making recommendations:
        - Base decisions on concrete evidence, not speculation
        - Clearly explain the reasoning and assumptions
        - Provide actionable insights for investors
        - Maintain professional skepticism and caution when data is limited
        - Use clear, structured language suitable for both novice and experienced investors
        ".

Record HistoricalData := {
  hd_data : option (list Row);
  hd_info : option dict
}.

(** The bundle handed over by the collection stage; a field that is
    absent from the mapping is [None].  The fields have the types the
    collection stage gives them, and the bundle is JSON-serializable, as the
    debug print-outs of the stage require; the print-outs themselves are left
    out. *)
Record Input := {
  in_success : option bool;
  in_symbol : option string;
  in_period : option string;
  in_period_description : option string;
  in_historical_data : option HistoricalData;
  in_chart_data : option (list Row);
  in_company_info : option dict;
  in_news : option (list dict);
  in_fundamentals : option value
}.

(** What lies outside the source file.  [prompt_text] renders the
    analysis request from the values the f-strings interpolate (symbol,
    company information, technical indicators, news, period description,
    closing prices); the company figures are taken to be numbers and the
    news items mappings, so that rendering does not raise. *)
Record Collaborators := {
  call_ollama : string -> string -> outcome string;
  to_datetime : string -> outcome Z;
  now_isoformat : string;
  prompt_text :
    string -> dict -> dict -> list dict -> string -> list Q -> string
}.

(** The table [df] after the indicator columns have been added. *)
Record DataFrame := {
  df_Date : list Z;
  df_Close : Series;
  df_MA20 : option Series;
  df_MA50 : option Series;
  df_RSI : option Series
}.

Definition iloc_last_ (s : Series) : outcome float :=
  match iloc_last s with
  | Some x => Return x
  | None => Raise "single positional indexer is out-of-bounds"
  end.

(** The RSI column: [100 - (100 / (1 + rs))] over the 14-period rolling
    means of the gains and of the losses. *)
Definition RSI (close : Series) : Series :=
  let delta := diff close in
  let gain := where_ (fun d => fgt d (Fin 0)) (Fin 0) delta in
  let loss := neg (where_ (fun d => flt d (Fin 0)) (Fin 0) delta) in
  let avg_gain := rolling_mean 14 gain in
  let avg_loss := rolling_mean 14 loss in
  let rs := div avg_gain avg_loss in
  (fun r => fsub (Fin 100) (fdiv (Fin 100) (fadd (Fin 1) r))) <$> rs.

Definition recent_trend (close : Series) : string :=
  if fgt (mean (iloc_tail 10 close)) (mean (iloc_between 20 10 close))
  then "uptrend" else "downtrend".

(** The [if len(df) >= 50: ... else: ...] block: the table with its new
    columns and the [technical_analysis] mapping. *)
Definition technical_indicators (dates : list Z) (close : Series)
    : outcome (DataFrame * dict) :=
  if (50 <=? length close)%nat then
    let MA20 := rolling_mean 20 close in
    let MA50 := rolling_mean 50 close in
    latest_close <~~ iloc_last_ close ;
    ma20_last <~~ iloc_last_ MA20 ;
    ma50_last <~~ iloc_last_ MA50 ;
    let ma20_signal := if fgt latest_close ma20_last then "above" else "below" in
    let ma50_signal := if fgt latest_close ma50_last then "above" else "below" in
    let rsi := RSI close in
    latest_rsi <~~ iloc_last_ rsi ;
    let trend := recent_trend close in
    Return ({| df_Date := dates; df_Close := close; df_MA20 := Some MA20;
               df_MA50 := Some MA50; df_RSI := Some rsi |},
            {[ "latest_close" := VFloat latest_close;
               "ma20_signal" := VStr ma20_signal;
               "ma50_signal" := VStr ma50_signal;
               "rsi" := VFloat latest_rsi;
               "trend" := VStr trend ]})
  else
    Return ({| df_Date := dates; df_Close := close; df_MA20 := None;
               df_MA50 := None; df_RSI := None |},
            {[ "error" := VStr "Not enough data points for technical analysis" ]}).

(** [df[df["Date"] == date].index]: the positions of the rows whose parsed
    date equals the parsed [date]; a text that is no date equals none. *)
Definition index_of_date (parse : string -> outcome Z) (dates : list Z)
    (date : string) : list nat :=
  match parse date with
  | Return t =>
      filter (fun i => dates !! i = Some t) (seq 0 (length dates))
  | Raise _ => []
  end.

(** The optional moving-average field of a chart point. *)
Definition add_ma (parse : string -> outcome Z) (dates : list Z)
    (key : string) (column : option Series) (row : Row)
    (chart_point : dict) : dict :=
  match column with
  | Some ma =>
      match index_of_date parse dates (Date row) with
      | i :: _ =>
          match ma !! i with
          | Some v => if isna v then chart_point
                      else <[ key := VFloat v ]> chart_point
          | None => chart_point
          end
      | [] => chart_point
      end
  | None => chart_point
  end.

Definition chart_point (parse : string -> outcome Z) (df : DataFrame)
    (row : Row) : dict :=
  let chart_point : dict :=
    {[ "date" := VStr (Date row);
       "close" := VFloat (Fin (Close row));
       "volume" := VInt (Volume row) ]} in
  let chart_point :=
    add_ma parse (df_Date df) "ma20" (df_MA20 df) row chart_point in
  add_ma parse (df_Date df) "ma50" (df_MA50 df) row chart_point.

(** The [for row in historical_data] loop. *)
Definition chart_data (parse : string -> outcome Z) (df : DataFrame)
    (historical_data : list Row) : list dict :=
  chart_point parse df <$> historical_data.

(** [pd.to_datetime(df['Date'])]: the first text that is no date raises. *)
Fixpoint to_datetime_column (parse : string -> outcome Z)
    (dates : list string) : outcome (list Z) :=
  match dates with
  | [] => Return []
  | d :: rest =>
      t <~~ parse d ;
      ts <~~ to_datetime_column parse rest ;
      Return (t :: ts)
  end.

Section process.
Variable env : Collaborators.

Definition is_empty {A} (l : list A) : bool :=
  match l with [] => true | _ => false end.

(** The price series the stage works on: the primary field, or the
    alternate one when the primary is empty. *)
Definition price_series (input_data : Input) : list Row :=
  let historical_data_obj :=
    default {| hd_data := None; hd_info := None |}
            (in_historical_data input_data) in
  let historical_data := default [] (hd_data historical_data_obj) in
  let chart_data := default [] (in_chart_data input_data) in
  if is_empty historical_data && negb (is_empty chart_data)
  then chart_data else historical_data.

Definition company_information (input_data : Input) : dict :=
  let company_info :=
    default ∅ (hd_info (default {| hd_data := None; hd_info := None |}
                                (in_historical_data input_data))) in
  if bool_decide (company_info = ∅)
  then default ∅ (in_company_info input_data)
  else company_info.

(** The body of the [try] block. *)
Definition process_try (input_data : Input) : M dict :=
  _ <~ (if negb (default false (in_success input_data))
        then raise "Invalid input data" else ret tt) ;
  let symbol := default "" (in_symbol input_data) in
  let period := default "" (in_period_description input_data) in
  let historical_data := price_series input_data in
  let company_info := company_information input_data in
  let news := default [] (in_news input_data) in
  _ <~ (if is_empty historical_data
        then raise "No historical data available for analysis"
        else ret tt) ;
  _ <~ update_status "calculating technical indicators" ;
  dates <~ lift (to_datetime_column (to_datetime env)
                    (Date <$> historical_data)) ;
  let close := (fun row => Fin (Close row)) <$> historical_data in
  ta <~ lift (technical_indicators dates close) ;
  let df := fst ta in
  let technical_analysis := snd ta in
  _ <~ update_status "generating analysis and recommendation" ;
  let prompt :=
    prompt_text env symbol company_info technical_analysis news period
                (Close <$> historical_data) in
  analysis <~ invoke (CallOllama prompt system_prompt)
                 (call_ollama env prompt system_prompt) ;
  let recommendation := extract_recommendation (py analysis) in
  let confidence := extract_confidence (py analysis) in
  let chart_data := chart_data (to_datetime env) df historical_data in
  let result : dict :=
    {[ "success" := VBool true;
       "symbol" := VStr symbol;
       "period" := from_option VStr VNone (in_period input_data);
       "period_description" := VStr period;
       "company_info" := VDict company_info;
       "analysis" := VStr analysis;
       "recommendation" := VStr recommendation;
       "confidence" := VStr confidence;
       "technical_indicators" := VDict technical_analysis;
       "chart_data" := VList (VDict <$> chart_data);
       "timestamp" := VStr (now_isoformat env) ]} in
  _ <~ set_result result ;
  _ <~ update_status "completed" ;
  ret result.

Definition process (input_data : Input) : M dict :=
  _ <~ update_status "processing" ;
  try_except (process_try input_data)
    (fun e =>
       _ <~ set_error e ;
       _ <~ update_status "error" ;
       ret (failure e)).

End process.

End AnalysisAgent.

(** ** The collection stage *)

Module DataCollectorAgent.

Definition system_prompt : string := "
        You are a senior financial data acquisition specialist.
        Your job is to reliably gather complete, clean, and well-structured stock data
        suitable for downstream analysis and visualization.
        
        Collection principles:
        - Prioritize data completeness and correctness
        - Capture provenance/source and timestamps
        - Normalize fields and ensure consistent schemas
        - Surface gaps or anomalies explicitly
        - Keep responses concise and structured
        ".

Record Input := {
  in_symbol : option string;
  in_period : option string
}.

(** The answer of the market-data provider; an absent field is [None]. *)
Record StockData := {
  sd_success : bool;
  sd_data : option (list Row);
  sd_info : option dict;
  sd_source : option string;
  sd_error : option string
}.

(** What lies outside the source file: the three providers of
    utils/stock_utils.py, the text-generation service, the period table of
    config.py, the clock, and the wording of the data-collection summary
    as a function of the values it interpolates (symbol, period
    description, number of price points, number of news items, source). *)
Record Collaborators := {
  fetch_stock_data : string -> string -> outcome StockData;
  fetch_news : string -> outcome (list dict);
  get_stock_fundamentals : string -> outcome value;
  call_ollama : string -> string -> outcome string;
  TIME_PERIODS : gmap string string;
  now_isoformat : string;
  prompt_text : string -> string -> nat -> nat -> string -> string
}.

Section process.
Variable env : Collaborators.

Definition process_try (input_data : Input) : M dict :=
  let symbol := default "" (in_symbol input_data) in
  let period := default "1y" (in_period input_data) in
  _ <~ (if bool_decide (symbol = "")
        then raise "Stock symbol is required" else ret tt) ;
  let period :=
    if bool_decide (is_Some (TIME_PERIODS env !! period))
    then period else "1y" in
  description <~ getitem period (TIME_PERIODS env !! period) ;
  _ <~ update_status ("collecting historical data for " +:+ symbol +:+
                      " (" +:+ description +:+ ")") ;
  historical_data <~ invoke (FetchStockData symbol period)
                        (fetch_stock_data env symbol period) ;
  if negb (sd_success historical_data) then
    e <~ getitem "error" (sd_error historical_data) ;
    _ <~ set_error e ;
    _ <~ update_status "error" ;
    ret (failure e)
  else
    _ <~ update_status ("collecting news for " +:+ symbol) ;
    news <~ invoke (FetchNews symbol) (fetch_news env symbol) ;
    _ <~ update_status ("collecting fundamentals for " +:+ symbol) ;
    fundamentals <~ invoke (GetStockFundamentals symbol)
                       (get_stock_fundamentals env symbol) ;
    data <~ getitem "data" (sd_data historical_data) ;
    let source := default "unknown" (sd_source historical_data) in
    let prompt :=
      prompt_text env symbol description (length data) (length news)
                  source in
    data_insights <~ invoke (CallOllama prompt system_prompt)
                        (call_ollama env prompt system_prompt) ;
    info <~ getitem "info" (sd_info historical_data) ;
    let result : dict :=
      {[ "success" := VBool true;
         "symbol" := VStr symbol;
         "period" := VStr period;
         "period_description" := VStr description;
         "historical_data" :=
           VDict {[ "success" := VBool (sd_success historical_data);
                    "data" := VList (row_value <$> data);
                    "info" := VDict info;
                    "source" := VStr source ]};
         "news" := VList (VDict <$> news);
         "fundamentals" := fundamentals;
         "data_insights" := VStr data_insights;
         "timestamp" := VStr (now_isoformat env);
         "chart_data" := VList (row_value <$> data);
         "company_info" := VDict info ]} in
    _ <~ set_result result ;
    _ <~ update_status "completed" ;
    ret result.

Definition process (input_data : Input) : M dict :=
  _ <~ update_status "processing" ;
  try_except (process_try input_data)
    (fun e =>
       _ <~ set_error e ;
       _ <~ update_status "error" ;
       ret (failure e)).

End process.

End DataCollectorAgent.

(** ** How a stage ends

    Abbreviations for the statements below: the pair of the returned mapping
    and the agent afterwards. *)

Module Run.

(** The [except] branch, and the early return of the collection stage. *)
Definition failed (self : agent) (msg : string) (cs : list call)
    : outcome dict * agent :=
  (Return (failure msg),
   {| name := name self; status := "error"; result := result self;
      error := Some msg; calls := cs |}).

(** The end of the [try] block. *)
Definition completed (self : agent) (r : dict) (cs : list call)
    : outcome dict * agent :=
  (Return r,
   {| name := name self; status := "completed"; result := Some r;
      error := error self; calls := cs |}).


(** The day-over-day changes of a run of closes, and the part of a change
    that counts as a gain and as a loss. *)
Definition changes (w : list Q) : list Q :=
  zip_with (fun a b => b - a)%Q w (tail w).

Definition gain_of (d : Q) : Q := if Qlt_bool 0 d then d else 0%Q.

Definition loss_of (d : Q) : Q := (- (if Qlt_bool d 0 then d else 0))%Q.

(** The RSI of an average gain and an average loss. *)
Definition rsi_of (avg_gain avg_loss : Q) : float :=
  fsub (Fin 100)
       (fdiv (Fin 100) (fadd (Fin 1) (fdiv (Fin avg_gain) (Fin avg_loss)))).

(** The sum of the gains, and of the losses, over the changes of a window. *)
Definition total_gain (w : list Q) : Q :=
  foldl Qplus 0%Q (gain_of <$> changes w).

Definition total_loss (w : list Q) : Q :=
  foldl Qplus 0%Q (loss_of <$> changes w).


End Run.

(** ** Sample collaborators and inputs, for evaluating the stages *)

Module Sample.

Definition digit (n : nat) : ascii := ascii_of_nat (48 + n mod 10).

(** The i-th trading day of a year of twelve 28-day months, as an ISO date. *)
Definition iso_date (i : nat) : string :=
  let m := (1 + i / 28)%nat in
  let d := (1 + i mod 28)%nat in
  "2024-" +:+ string_of_list_ascii [digit (m / 10); digit m] +:+ "-" +:+
  string_of_list_ascii [digit (d / 10); digit d].

(** A date parser for ISO dates: the digits read as one number. *)
Definition parse_iso (s : string) : outcome Z :=
  foldl (fun acc c =>
           match acc with
           | Raise msg => Raise msg
           | Return z =>
               let n := nat_of_ascii c in
               if ((48 <=? n) && (n <=? 57))%nat
               then Return (10 * z + Z.of_nat (n - 48))%Z
               else if Ascii.eqb c "-" then Return z
               else Raise "Unknown datetime string format"
           end)
        (Return 0%Z) (list_ascii_of_string s).


Definition row (i : nat) (close : Q) : Row :=
  {| Date := iso_date i; Open := close; High := close; Low := close;
     Close := close; Volume := 1000 |}.

(** [n] days at the same closing price. *)
Definition flat (n : nat) : list Row :=
  (fun i => row i 5) <$> seq 0 n.


Definition reply : string :=
  "Summary. **RECOMMENDATION: BUY** **CONFIDENCE: HIGH** Reasoning: strong.".

Definition analysis_env : AnalysisAgent.Collaborators :=
  {| AnalysisAgent.call_ollama := fun _ _ => Return reply;
     AnalysisAgent.to_datetime := parse_iso;
     AnalysisAgent.now_isoformat := "2024-12-31T00:00:00";
     AnalysisAgent.prompt_text := fun symbol _ _ _ _ _ => "Analyse " +:+ symbol |}.

Definition bundle (rows : list Row) : AnalysisAgent.Input :=
  {| AnalysisAgent.in_success := Some true;
     AnalysisAgent.in_symbol := Some "ACME";
     AnalysisAgent.in_period := Some "1y";
     AnalysisAgent.in_period_description := Some "1 Year";
     AnalysisAgent.in_historical_data :=
       Some {| AnalysisAgent.hd_data := Some rows;
               AnalysisAgent.hd_info := Some ∅ |};
     AnalysisAgent.in_chart_data := Some rows;
     AnalysisAgent.in_company_info := Some ∅;
     AnalysisAgent.in_news := Some [];
     AnalysisAgent.in_fundamentals := None |}.

(** Providers that give the same answers for every symbol. *)
Definition collector_env (answer : outcome DataCollectorAgent.StockData)
    (news : outcome (list dict)) (fundamentals : outcome value)
    : DataCollectorAgent.Collaborators :=
  {| DataCollectorAgent.fetch_stock_data := fun _ _ => answer;
     DataCollectorAgent.fetch_news := fun _ => news;
     DataCollectorAgent.get_stock_fundamentals := fun _ => fundamentals;
     DataCollectorAgent.call_ollama := fun _ _ => Return "Coverage is complete.";
     DataCollectorAgent.TIME_PERIODS := {[ "1mo" := "1 Month"; "1y" := "1 Year" ]};
     DataCollectorAgent.now_isoformat := "2024-12-31T00:00:00";
     DataCollectorAgent.prompt_text := fun symbol _ _ _ _ => "Collected " +:+ symbol |}.

Definition no_data : DataCollectorAgent.StockData :=
  {| DataCollectorAgent.sd_success := false;
     DataCollectorAgent.sd_data := None;
     DataCollectorAgent.sd_info := None;
     DataCollectorAgent.sd_source := None;
     DataCollectorAgent.sd_error := Some "No data found for symbol ACME" |}.

Definition some_data (rows : list Row) : DataCollectorAgent.StockData :=
  {| DataCollectorAgent.sd_success := true;
     DataCollectorAgent.sd_data := Some rows;
     DataCollectorAgent.sd_info := Some ∅;
     DataCollectorAgent.sd_source := Some "yfinance";
     DataCollectorAgent.sd_error := None |}.

Definition request : DataCollectorAgent.Input :=
  {| DataCollectorAgent.in_symbol := Some "ACME";
     DataCollectorAgent.in_period := Some "1y" |}.

End Sample.

(** ** The extraction rule as the specification words it

    Only used to compare with [extract_recommendation]: the first occurrence
    of any accepted header spelling is located in the case-folded text, and
    of the keywords in the first 30 characters of the window after it the
    one that occurs first wins. *)

Module Spec.

Definition earliest {A} (found : list (nat * A)) : option (nat * A) :=
  foldl (fun best c =>
           match best with
           | None => Some c
           | Some b => if (fst c <? fst b)%nat then Some c else Some b
           end) None found.

Definition occurrences {A} (name : A -> str) (xs : list A) (text : str)
    : list (nat * A) :=
  omap (fun x => (fun i => (i, x)) <$> find (name x) text) xs.

Definition first_header (patterns : list str) (analysis : str)
    : option (nat * str) :=
  earliest (occurrences upper patterns (upper analysis)).

Definition first_keyword (keywords : list string) (window : str)
    : option string :=
  snd <$> earliest (occurrences py keywords window).

Definition recommendation (analysis : str) : string :=
  match first_header rec_patterns analysis with
  | Some (idx, pattern) =>
      default "HOLD"
        (first_keyword ["BUY"; "SELL"; "HOLD"]
           (take 30 (part analysis pattern idx 100)))
  | None => "HOLD"
  end.

End Spec.

(** ** The news part of the prompt
    ([AnalysisAgent.process], the text handed to the text-generation
    service) *)

Module Prompt.




End Prompt.

(** * Properties *)

(** ** Python strings *)

Section PyStrFacts.

Lemma startswith_spec (p s : str) :
  startswith p s = true <-> exists t, s = p ++ t.
Proof.
  revert s. induction p as [|a p IH]; intros s; simpl.
  - split; [intros _; by exists s | done].
  - destruct s as [|b s]; simpl.
    + split; [done | intros [t Ht]; discriminate].
    + destruct (ascii_dec a b) as [->|Hne].
      * rewrite IH. split; intros [t Ht]; exists t; simpl in *; congruence.
      * split; [done | intros [t Ht]; simpl in Ht; congruence].
Qed.

Lemma find_Some_drop (p s : str) (i : nat) :
  find p s = Some i -> startswith p (drop i s) = true.
Proof.
  revert i. induction s as [|c s IH]; intros i; simpl.
  - destruct (startswith p []) eqn:E; [|done].
    intros [= <-]. by rewrite drop_0.
  - destruct (startswith p (c :: s)) eqn:E.
    + intros [= <-]. by rewrite drop_0.
    + destruct (find p s) as [j|] eqn:F; simpl; [|done].
      intros [= <-]. simpl. by apply IH.
Qed.

Lemma find_None_drop (p s : str) (i : nat) :
  find p s = None -> startswith p (drop i s) = false.
Proof.
  revert i. induction s as [|c s IH]; intros i; simpl.
  - destruct (startswith p []) eqn:E; [done|].
    intros _. by rewrite drop_nil.
  - destruct (startswith p (c :: s)) eqn:E; [done|].
    destruct (find p s) as [j|] eqn:F; simpl; [done|].
    intros _. destruct i as [|i]; simpl; [done | by apply IH].
Qed.

Lemma contains_true (p s : str) :
  contains p s = true <-> exists a b, s = a ++ p ++ b.
Proof.
  unfold contains. rewrite bool_decide_eq_true. split.
  - intros [i Hi]. apply find_Some_drop, startswith_spec in Hi as [t Ht].
    exists (take i s), t. by rewrite <- Ht, take_drop.
  - intros (a & b & ->).
    destruct (find p (a ++ p ++ b)) as [i|] eqn:F; [by eexists|].
    apply (find_None_drop _ _ (length a)) in F.
    rewrite drop_app_length in F.
    assert (startswith p (p ++ b) = true) by (apply startswith_spec; eauto).
    congruence.
Qed.

Lemma contains_false (p s : str) :
  contains p s = false <-> find p s = None.
Proof.
  unfold contains. rewrite bool_decide_eq_false, <- eq_None_not_Some. done.
Qed.








End PyStrFacts.

(** ** Recommendation and confidence extraction *)

Section ExtractionFacts.

Lemma rec_loop_values (analysis au : str) (patterns : list str) (d : string) :
  rec_loop analysis au patterns d ∈ ["BUY"; "SELL"; "HOLD"; d].
Proof.
  induction patterns as [|p ps IH]; cbn [rec_loop].
  - do 3 right. left.
  - destruct (find (upper p) au) as [idx|]; [|done].
    repeat case_match; try done.
    + left.
    + right; left.
    + do 2 right; left.
Qed.

Lemma conf_loop_values (analysis au : str) (patterns : list str) (d : string) :
  conf_loop analysis au patterns d ∈ ["HIGH"; "MEDIUM"; "LOW"; d].
Proof.
  induction patterns as [|p ps IH]; cbn [conf_loop].
  - do 3 right. left.
  - destruct (find (upper p) au) as [idx|]; [|done].
    repeat case_match; try done.
    + left.
    + right; left.
    + do 2 right; left.
Qed.

(** No upper-case BUY or SELL in the window of any header that is found:
    the loop leaves HOLD in place. *)
Lemma rec_loop_no_match (analysis au : str) (patterns : list str) :
  (forall pattern idx,
      pattern ∈ patterns -> find (upper pattern) au = Some idx ->
      forall k, k ∈ ["BUY"; "SELL"] ->
        contains (py k) (take 30 (part analysis pattern idx 100)) = false) ->
  rec_loop analysis au patterns "HOLD" = "HOLD".
Proof.
  induction patterns as [|p ps IH]; intros H; cbn [rec_loop]; [done|].
  assert (IH' : rec_loop analysis au ps "HOLD" = "HOLD").
  { apply IH. intros q idx Hq. apply H. by right. }
  destruct (find (upper p) au) as [idx|] eqn:F; [|done].
  rewrite (H p idx ltac:(by left) F "BUY" ltac:(by left)).
  rewrite (H p idx ltac:(by left) F "SELL" ltac:(by right; left)).
  by case_match.
Qed.

Lemma conf_loop_no_match (analysis au : str) (patterns : list str) :
  (forall pattern idx,
      pattern ∈ patterns -> find (upper pattern) au = Some idx ->
      forall k, k ∈ ["HIGH"; "MEDIUM"] ->
        contains (py k) (take 15 (part analysis pattern idx 50)) = false) ->
  conf_loop analysis au patterns "LOW" = "LOW".
Proof.
  induction patterns as [|p ps IH]; intros H; cbn [conf_loop]; [done|].
  assert (IH' : conf_loop analysis au ps "LOW" = "LOW").
  { apply IH. intros q idx Hq. apply H. by right. }
  destruct (find (upper p) au) as [idx|] eqn:F; [|done].
  rewrite (H p idx ltac:(by left) F "HIGH" ltac:(by left)).
  rewrite (H p idx ltac:(by left) F "MEDIUM" ltac:(by right; left)).
  by case_match.
Qed.


End ExtractionFacts.

Section ExtractionClaims.




(** C10.  Keyword matching is case-sensitive although the header search is
    case-folded: when the window of every header spelling found in the
    upper-cased reply holds no upper-case BUY or SELL (resp. HIGH or
    MEDIUM), however the keywords are spelled in lower case there, the
    defaults HOLD and LOW are returned. *)
Theorem keywords_are_case_sensitive (analysis : str) :
  (forall pattern idx,
      pattern ∈ rec_patterns ->
      find (upper pattern) (upper analysis) = Some idx ->
      forall k, k ∈ ["BUY"; "SELL"] ->
        contains (py k) (take 30 (part analysis pattern idx 100)) = false) ->
  (forall pattern idx,
      pattern ∈ conf_patterns ->
      find (upper pattern) (upper analysis) = Some idx ->
      forall k, k ∈ ["HIGH"; "MEDIUM"] ->
        contains (py k) (take 15 (part analysis pattern idx 50)) = false) ->
  extract_recommendation analysis = "HOLD" /\
  extract_confidence analysis = "LOW".
Proof.
  intros Hrec Hconf. split.
  - by apply rec_loop_no_match.
  - by apply conf_loop_no_match.
Qed.

Lemma keywords_are_case_sensitive_witness :
  contains (py "BUY") (upper (py "Recommendation: buy. Confidence: high.")) = true /\
  extract_recommendation (py "Recommendation: buy. Confidence: high.") = "HOLD" /\
  extract_confidence (py "Recommendation: buy. Confidence: high.") = "LOW".
Proof.
  split; [vm_compute; reflexivity|].
  apply (keywords_are_case_sensitive
           (py "Recommendation: buy. Confidence: high.")).
  - intros pattern idx Hin F k Hk.
    repeat (apply elem_of_cons in Hin as [->|Hin]);
      [..|by apply elem_of_nil in Hin];
      vm_compute in F; try discriminate F; injection F as <-;
      (repeat (apply elem_of_cons in Hk as [->|Hk]);
       [..|by apply elem_of_nil in Hk]); vm_compute; reflexivity.
  - intros pattern idx Hin F k Hk.
    repeat (apply elem_of_cons in Hin as [->|Hin]);
      [..|by apply elem_of_nil in Hin];
      vm_compute in F; try discriminate F; injection F as <-;
      (repeat (apply elem_of_cons in Hk as [->|Hk]);
       [..|by apply elem_of_nil in Hk]); vm_compute; reflexivity.
Defined.

End ExtractionClaims.

(** ** The analysis stage: how a run goes *)

Section AnalysisRun.

Import AnalysisAgent.

Variable env : Collaborators.

(** Every way through [process], in the order the code takes them. *)
Lemma process_run (input_data : Input) (self : agent) :
  let rows := price_series input_data in
  let close := (fun row => Fin (Close row)) <$> rows in
  process env input_data self =
    if negb (default false (in_success input_data)) then
      Run.failed self "Invalid input data" (calls self)
    else if is_empty rows then
      Run.failed self "No historical data available for analysis" (calls self)
    else
      match to_datetime_column (to_datetime env) (Date <$> rows) with
      | Raise msg => Run.failed self msg (calls self)
      | Return dates =>
          match technical_indicators dates close with
          | Raise msg => Run.failed self msg (calls self)
          | Return (df, ta) =>
              let prompt :=
                prompt_text env (default "" (in_symbol input_data))
                  (company_information input_data) ta
                  (default [] (in_news input_data))
                  (default "" (in_period_description input_data))
                  (Close <$> rows) in
              let cs := calls self ++ [CallOllama prompt system_prompt] in
              match call_ollama env prompt system_prompt with
              | Raise msg => Run.failed self msg cs
              | Return analysis =>
                  Run.completed self
                    {[ "success" := VBool true;
                       "symbol" := VStr (default "" (in_symbol input_data));
                       "period" :=
                         from_option VStr VNone (in_period input_data);
                       "period_description" :=
                         VStr (default "" (in_period_description input_data));
                       "company_info" :=
                         VDict (company_information input_data);
                       "analysis" := VStr analysis;
                       "recommendation" :=
                         VStr (extract_recommendation (py analysis));
                       "confidence" :=
                         VStr (extract_confidence (py analysis));
                       "technical_indicators" := VDict ta;
                       "chart_data" :=
                         VList (VDict <$> chart_data (to_datetime env) df rows);
                       "timestamp" := VStr (now_isoformat env) ]}
                    cs
              end
          end
      end.
Proof.
  intros rows close. subst rows close.
  unfold process, process_try, try_except, bind, Run.failed, Run.completed.
  cbn [update_status set_error set_result ret raise lift invoke
       name status result error calls].
  destruct (negb (default false (in_success input_data))); [done|].
  destruct (is_empty (price_series input_data)); [done|].
  destruct (to_datetime_column _ _) as [dates|msg]; [|done].
  destruct (technical_indicators _ _) as [[df ta]|msg]; [|done].
  cbn [fst snd].
  by destruct (call_ollama env _ _).
Qed.

(** The stage always returns a mapping: no exception crosses its boundary. *)
Lemma process_returns (input_data : Input) (self : agent) :
  exists r self', process env input_data self = (Return r, self').
Proof.
  rewrite process_run. unfold Run.failed, Run.completed.
  repeat case_match; eauto.
Qed.

End AnalysisRun.

(** ** Technical indicators *)

Section IndicatorFacts.

Import AnalysisAgent.

Lemma length_rolling_mean (w : nat) (s : Series) :
  length (rolling_mean w s) = length s.
Proof. apply length_imap. Qed.

Lemma length_diff (s : Series) : length (diff s) = length s.
Proof. apply length_imap. Qed.

Lemma length_RSI (close : Series) : length (RSI close) = length close.
Proof.
  unfold RSI, div, neg, where_.
  rewrite length_fmap, length_zip_with, !length_rolling_mean, !length_fmap,
    length_diff.
  lia.
Qed.

Lemma iloc_last_nonempty (s : Series) :
  (0 < length s)%nat -> exists x, iloc_last s = Some x.
Proof.
  intros H. unfold iloc_last. destruct (last s) eqn:E; [eauto|].
  apply last_None in E. subst. simpl in H. lia.
Qed.


(** With 50 points or more the block returns the five indicator fields. *)
Lemma technical_indicators_enough (dates : list Z) (close : Series) :
  (50 <= length close)%nat ->
  exists latest_close ma20_last ma50_last latest_rsi,
    iloc_last close = Some latest_close /\
    iloc_last (rolling_mean 20 close) = Some ma20_last /\
    iloc_last (rolling_mean 50 close) = Some ma50_last /\
    iloc_last (RSI close) = Some latest_rsi /\
    technical_indicators dates close =
      Return ({| df_Date := dates; df_Close := close;
                 df_MA20 := Some (rolling_mean 20 close);
                 df_MA50 := Some (rolling_mean 50 close);
                 df_RSI := Some (RSI close) |},
              {[ "latest_close" := VFloat latest_close;
                 "ma20_signal" :=
                   VStr (if fgt latest_close ma20_last then "above" else "below");
                 "ma50_signal" :=
                   VStr (if fgt latest_close ma50_last then "above" else "below");
                 "rsi" := VFloat latest_rsi;
                 "trend" := VStr (recent_trend close) ]}).
Proof.
  intros H.
  destruct (iloc_last_nonempty close) as [lc Hlc]; [lia|].
  destruct (iloc_last_nonempty (rolling_mean 20 close)) as [m20 H20];
    [rewrite length_rolling_mean; lia|].
  destruct (iloc_last_nonempty (rolling_mean 50 close)) as [m50 H50];
    [rewrite length_rolling_mean; lia|].
  destruct (iloc_last_nonempty (RSI close)) as [r Hr];
    [rewrite length_RSI; lia|].
  exists lc, m20, m50, r. repeat (split; [done|]).
  unfold technical_indicators, iloc_last_, obind.
  destruct (Nat.leb_spec 50 (length close)); [|lia].
  by rewrite Hlc, H20, H50, Hr.
Qed.


End IndicatorFacts.

(** ** The analysis stage: preconditions, defaults, short histories *)

Section AnalysisClaims.

Import AnalysisAgent.

(** The series is empty exactly when the primary field and the alternate
    field are both absent or empty. *)
Lemma price_series_empty (input_data : Input) :
  price_series input_data = [] <->
  default [] (in_historical_data input_data ≫= hd_data) = [] /\
  default [] (in_chart_data input_data) = [].
Proof.
  unfold price_series.
  destruct (in_historical_data input_data) as [[[[|r rows]|] ?]|];
    destruct (in_chart_data input_data) as [[|c cs]|]; simpl;
    (split; [intros E; try discriminate E; done | intros [E1 E2]; try discriminate E1; try discriminate E2; done]).
Qed.

(** C6.  An input whose success flag is not true is answered with the
    failure mapping carrying "Invalid input data"; an input with the flag set
    whose price series is empty, also after falling back to the alternate
    field, with "No historical data available for analysis".  In both cases
    the agent has invoked no collaborator, so the text-generation service is
    not called. *)
Theorem analysis_preconditions (env : Collaborators) (input_data : Input)
    (self : agent) :
  (in_success input_data <> Some true ->
   fst (process env input_data self)
   = Return {[ "success" := VBool false;
               "error" := VStr "Invalid input data" ]} /\
   calls (snd (process env input_data self)) = calls self) /\
  (in_success input_data = Some true ->
   default [] (in_historical_data input_data ≫= hd_data) = [] ->
   default [] (in_chart_data input_data) = [] ->
   fst (process env input_data self)
   = Return {[ "success" := VBool false;
               "error" := VStr "No historical data available for analysis" ]} /\
   calls (snd (process env input_data self)) = calls self).
Proof.
  split.
  - intros H. rewrite process_run.
    destruct (in_success input_data) as [[]|]; done.
  - intros H H1 H2. rewrite process_run, H.
    rewrite (proj2 (price_series_empty input_data)) by done. done.
Qed.

Lemma analysis_preconditions_witness :
  fst (process Sample.analysis_env (Sample.bundle []) (init "AnalysisAgent"))
  = Return {[ "success" := VBool false;
              "error" := VStr "No historical data available for analysis" ]} /\
  calls (snd (process Sample.analysis_env (Sample.bundle [])
                (init "AnalysisAgent"))) = [].
Proof.
  apply (proj2 (analysis_preconditions Sample.analysis_env (Sample.bundle [])
                  (init "AnalysisAgent"))); reflexivity.
Defined.




(** Every header spelling contains the bare word. *)
Lemma header_contains_word (word : str) (patterns : list str) (au : str) :
  Forall (fun p => exists a b, upper p = a ++ word ++ b) patterns ->
  contains word au = false ->
  forall pattern, pattern ∈ patterns -> find (upper pattern) au = None.
Proof.
  intros HF Hword pattern Hin.
  rewrite Forall_forall in HF. destruct (HF _ Hin) as (a & b & Hp).
  apply contains_false.
  destruct (contains (upper pattern) au) eqn:E; [|done].
  apply contains_true in E as (a' & b' & ->).
  assert (contains word (a' ++ upper pattern ++ b') = true); [|congruence].
  apply contains_true. exists (a' ++ a), (b ++ b').
  rewrite Hp. by rewrite <- !app_assoc.
Qed.

(** C2.  For every reply the extracted recommendation is BUY, SELL or HOLD
    and the extracted confidence is HIGH, MEDIUM or LOW.  A reply with no
    recommendation or confidence header at all, or one where no header that
    is found has a keyword in its window, yields exactly HOLD and LOW.  A
    successful result of the stage carries both fields as such strings, so
    they are never null or empty. *)
Theorem recommendation_and_confidence_enumerated :
  (forall analysis : str,
      extract_recommendation analysis ∈ ["BUY"; "SELL"; "HOLD"] /\
      extract_confidence analysis ∈ ["HIGH"; "MEDIUM"; "LOW"]) /\
  (forall analysis : str,
      contains (py "RECOMMENDATION") (upper analysis) = false ->
      contains (py "CONFIDENCE") (upper analysis) = false ->
      extract_recommendation analysis = "HOLD" /\
      extract_confidence analysis = "LOW") /\
  (forall analysis : str,
      (forall pattern idx k,
          pattern ∈ rec_patterns ->
          find (upper pattern) (upper analysis) = Some idx ->
          k ∈ ["BUY"; "SELL"; "HOLD"] ->
          contains (py k) (take 30 (part analysis pattern idx 100)) = false) ->
      (forall pattern idx k,
          pattern ∈ conf_patterns ->
          find (upper pattern) (upper analysis) = Some idx ->
          k ∈ ["HIGH"; "MEDIUM"; "LOW"] ->
          contains (py k) (take 15 (part analysis pattern idx 50)) = false) ->
      extract_recommendation analysis = "HOLD" /\
      extract_confidence analysis = "LOW") /\
  (forall (env : Collaborators) (input_data : Input) (self self' : agent)
          (r : dict),
      process env input_data self = (Return r, self') ->
      r !! "success" = Some (VBool true) ->
      exists recommendation confidence,
        r !! "recommendation" = Some (VStr recommendation) /\
        recommendation ∈ ["BUY"; "SELL"; "HOLD"] /\
        r !! "confidence" = Some (VStr confidence) /\
        confidence ∈ ["HIGH"; "MEDIUM"; "LOW"]).
Proof.
  assert (Hvalues : forall analysis : str,
      extract_recommendation analysis ∈ ["BUY"; "SELL"; "HOLD"] /\
      extract_confidence analysis ∈ ["HIGH"; "MEDIUM"; "LOW"]).
  { intros analysis. split.
    - pose proof (rec_loop_values analysis (upper analysis) rec_patterns "HOLD")
        as H.
      unfold extract_recommendation.
      repeat (apply elem_of_cons in H as [->|H]); try by apply elem_of_nil in H.
      + left. + right; left. + do 2 right; left. + do 2 right; left.
    - pose proof (conf_loop_values analysis (upper analysis) conf_patterns "LOW")
        as H.
      unfold extract_confidence.
      repeat (apply elem_of_cons in H as [->|H]); try by apply elem_of_nil in H.
      + left. + right; left. + do 2 right; left. + do 2 right; left. }
  split; [exact Hvalues|]. split; [|split].
  - intros analysis Hr Hc. split.
    + apply rec_loop_no_match. intros pattern idx Hin F.
      rewrite (header_contains_word (py "RECOMMENDATION") rec_patterns
                 (upper analysis)) in F; [done| |done|done].
      repeat constructor.
      * by exists [], (py ":").
      * by exists (py "**"), (py ":**").
      * by exists [], [].
    + apply conf_loop_no_match. intros pattern idx Hin F.
      rewrite (header_contains_word (py "CONFIDENCE") conf_patterns
                 (upper analysis)) in F; [done| |done|done].
      repeat constructor.
      * by exists [], (py ":").
      * by exists (py "**"), (py ":**").
      * by exists [], [].
  - intros analysis Hr Hc. split.
    + apply rec_loop_no_match. intros pattern idx Hin F k Hk.
      apply (Hr pattern idx k Hin F).
      repeat (apply elem_of_cons in Hk as [->|Hk]); try by apply elem_of_nil in Hk.
      * left. * right; left.
    + apply conf_loop_no_match. intros pattern idx Hin F k Hk.
      apply (Hc pattern idx k Hin F).
      repeat (apply elem_of_cons in Hk as [->|Hk]); try by apply elem_of_nil in Hk.
      * left. * right; left.
  - intros env input_data self self' r Hrun Hok.
    rewrite process_run in Hrun. unfold Run.failed, Run.completed in Hrun.
    repeat case_match; injection Hrun as <- <-;
      try (unfold failure in Hok; rewrite lookup_insert_eq in Hok;
           discriminate Hok).
    match goal with
    | |- context [extract_recommendation (py ?a)] =>
        exists (extract_recommendation (py a)), (extract_confidence (py a));
        destruct (Hvalues (py a)) as [? ?]
    end.
    repeat split; try done; by simplify_map_eq.
Qed.

Lemma recommendation_and_confidence_enumerated_witness :
  extract_recommendation (py "The outlook is mixed.") = "HOLD" /\
  extract_confidence (py "The outlook is mixed.") = "LOW".
Proof.
  apply (proj1 (proj2 recommendation_and_confidence_enumerated));
    vm_compute; reflexivity.
Defined.

End AnalysisClaims.

(** ** Chart data *)

Section ChartFacts.

Import AnalysisAgent.




Lemma add_ma_other (parse : string -> outcome Z) (dates : list Z)
    (key : string) (column : option Series) (row : Row) (cp : dict)
    (k : string) :
  k <> key -> add_ma parse dates key column row cp !! k = cp !! k.
Proof.
  intros Hk. unfold add_ma. repeat case_match; try done.
  by rewrite lookup_insert_ne.
Qed.

Lemma add_ma_key (parse : string -> outcome Z) (dates : list Z)
    (key : string) (ma : Series) (row : Row) (cp : dict) :
  cp !! key = None ->
  add_ma parse dates key (Some ma) row cp !! key =
    match index_of_date parse dates (Date row) with
    | [] => None
    | j :: _ =>
        match ma !! j with
        | Some x => if isna x then None else Some (VFloat x)
        | None => None
        end
    end.
Proof.
  intros Hk. unfold add_ma. repeat case_match; try done.
  by rewrite lookup_insert_eq.
Qed.

Lemma fsum_Fin (qs : list Q) :
  fsum (Fin <$> qs) = Fin (foldl Qplus 0%Q qs).
Proof.
  unfold fsum. generalize 0%Q as acc.
  induction qs as [|q qs IH]; intros acc; simpl; [done|]. apply IH.
Qed.

Lemma existsb_isna_Fin (qs : list Q) : existsb isna (Fin <$> qs) = false.
Proof. induction qs; simpl; done. Qed.

Lemma Qeq_bool_of_nat (w : nat) :
  (0 < w)%nat -> Qeq_bool (inject_Z (Z.of_nat w)) 0 = false.
Proof.
  intros Hw. destruct (Qeq_bool _ _) eqn:E; [|done].
  apply Qeq_bool_iff in E. unfold Qeq in E. simpl in E. lia.
Qed.

(** A rolling mean over finite numbers is missing exactly while its window
    is not full. *)
Lemma rolling_mean_lookup_Fin (w : nat) (qs : list Q) (j : nat) :
  (0 < w)%nat -> (j < length qs)%nat ->
  rolling_mean w (Fin <$> qs) !! j =
    Some (if (j + 1 <? w)%nat then NaN
          else Fin (foldl Qplus 0%Q (take w (drop (j + 1 - w) qs))
                    / inject_Z (Z.of_nat w))%Q).
Proof.
  intros Hw Hj. unfold rolling_mean. rewrite list_lookup_imap.
  destruct (lookup_lt_is_Some_2 (Fin <$> qs) j) as [x Hx];
    [by rewrite length_fmap|].
  rewrite Hx. simpl. f_equal.
  destruct (j + 1 <? w)%nat; [done|].
  rewrite <- fmap_drop, <- fmap_take, existsb_isna_Fin, fsum_Fin.
  unfold fdiv, of_nat. by rewrite Qeq_bool_of_nat.
Qed.


Lemma chart_point_base (row : Row) (k : string) :
  k <> "date" -> k <> "close" -> k <> "volume" ->
  ({[ "date" := VStr (Date row); "close" := VFloat (Fin (Close row));
      "volume" := VInt (Volume row) ]} : dict) !! k = None.
Proof.
  intros. by rewrite !lookup_insert_ne, lookup_singleton_ne.
Qed.



End ChartFacts.

(** ** The collection stage *)

Section CollectionRun.

Import DataCollectorAgent.

Variable env : Collaborators.

(** Every way through [process], in the order the code takes them. *)
Lemma collection_run (input_data : Input) (self : agent) :
  let symbol := default "" (in_symbol input_data) in
  let period :=
    if bool_decide (is_Some (TIME_PERIODS env !! default "1y" (in_period input_data)))
    then default "1y" (in_period input_data) else "1y" in
  process env input_data self =
    if bool_decide (symbol = "") then
      Run.failed self "Stock symbol is required" (calls self)
    else
      match TIME_PERIODS env !! period with
      | None => Run.failed self ("'" +:+ period +:+ "'") (calls self)
      | Some description =>
          let c1 := calls self ++ [FetchStockData symbol period] in
          match fetch_stock_data env symbol period with
          | Raise msg => Run.failed self msg c1
          | Return historical_data =>
              if negb (sd_success historical_data) then
                match sd_error historical_data with
                | Some e => Run.failed self e c1
                | None => Run.failed self "'error'" c1
                end
              else
                let c2 := c1 ++ [FetchNews symbol] in
                match fetch_news env symbol with
                | Raise msg => Run.failed self msg c2
                | Return news =>
                    let c3 := c2 ++ [GetStockFundamentals symbol] in
                    match get_stock_fundamentals env symbol with
                    | Raise msg => Run.failed self msg c3
                    | Return fundamentals =>
                        match sd_data historical_data with
                        | None => Run.failed self "'data'" c3
                        | Some data =>
                            let source :=
                              default "unknown" (sd_source historical_data) in
                            let prompt :=
                              prompt_text env symbol description (length data)
                                (length news) source in
                            let c4 :=
                              c3 ++ [CallOllama prompt system_prompt] in
                            match call_ollama env prompt system_prompt with
                            | Raise msg => Run.failed self msg c4
                            | Return data_insights =>
                                match sd_info historical_data with
                                | None => Run.failed self "'info'" c4
                                | Some info =>
                                    Run.completed self
                                      {[ "success" := VBool true;
                                         "symbol" := VStr symbol;
                                         "period" := VStr period;
                                         "period_description" := VStr description;
                                         "historical_data" :=
                                           VDict {[ "success" := VBool (sd_success historical_data);
                                                    "data" := VList (row_value <$> data);
                                                    "info" := VDict info;
                                                    "source" := VStr source ]};
                                         "news" := VList (VDict <$> news);
                                         "fundamentals" := fundamentals;
                                         "data_insights" := VStr data_insights;
                                         "timestamp" := VStr (now_isoformat env);
                                         "chart_data" := VList (row_value <$> data);
                                         "company_info" := VDict info ]}
                                      c4
                                end
                            end
                        end
                    end
                end
          end
      end.
Proof.
  intros symbol period. subst symbol period.
  unfold process, process_try, try_except, bind, getitem,
    Run.failed, Run.completed.
  cbn [update_status set_error set_result ret raise lift invoke
       name status result error calls].
  destruct (bool_decide (default "" (in_symbol input_data) = "")); [done|].
  destruct (TIME_PERIODS env !! _) as [description|]; [|done].
  cbn [update_status ret raise name status result error calls].
  destruct (fetch_stock_data env _ _) as [historical_data|msg]; [|done].
  destruct (sd_success historical_data); cbn [negb].
  - destruct (fetch_news env _) as [news|msg]; [|done].
    destruct (get_stock_fundamentals env _) as [fundamentals|msg]; [|done].
    destruct (sd_data historical_data) as [data|]; [|done].
    cbn [ret raise name status result error calls].
    destruct (call_ollama env _ _) as [data_insights|msg]; [|done].
    by destruct (sd_info historical_data) as [info|].
  - by destruct (sd_error historical_data) as [e|].
Qed.

(** C7.  For a request with a symbol and a period the table knows (or its
    1-year default), a provider answer with the success flag off and an error
    text ends the stage at once with the failure mapping carrying that text:
    the provider call is the only collaborator invoked, so neither news nor
    fundamentals are fetched and the text-generation service is not called.
    When the provider succeeds, the stage goes on whatever the news and the
    fundamentals providers return: it never inspects their answers, and ends
    with a successful result that passes them through. *)
Theorem provider_failure_is_fatal (input_data : Input) (self : agent) :
  let symbol := default "" (in_symbol input_data) in
  let period :=
    if bool_decide (is_Some (TIME_PERIODS env !! default "1y" (in_period input_data)))
    then default "1y" (in_period input_data) else "1y" in
  symbol <> "" ->
  is_Some (TIME_PERIODS env !! period) ->
  (forall historical_data e,
      fetch_stock_data env symbol period = Return historical_data ->
      sd_success historical_data = false ->
      sd_error historical_data = Some e ->
      fst (process env input_data self)
      = Return {[ "success" := VBool false; "error" := VStr e ]} /\
      calls (snd (process env input_data self))
      = calls self ++ [FetchStockData symbol period]) /\
  (forall historical_data data info news fundamentals,
      fetch_stock_data env symbol period = Return historical_data ->
      sd_success historical_data = true ->
      sd_data historical_data = Some data ->
      sd_info historical_data = Some info ->
      fetch_news env symbol = Return news ->
      get_stock_fundamentals env symbol = Return fundamentals ->
      (forall prompt, exists data_insights,
          call_ollama env prompt system_prompt = Return data_insights) ->
      exists r prompt,
        fst (process env input_data self) = Return r /\
        r !! "success" = Some (VBool true) /\
        r !! "news" = Some (VList (VDict <$> news)) /\
        r !! "fundamentals" = Some fundamentals /\
        calls (snd (process env input_data self))
        = calls self ++ [FetchStockData symbol period; FetchNews symbol;
                         GetStockFundamentals symbol;
                         CallOllama prompt system_prompt]).
Proof.
  intros symbol period Hsym [description Hper]. split.
  - intros historical_data e Hfetch Hflag Herr.
    rewrite collection_run. fold symbol period.
    rewrite bool_decide_eq_false_2 by done.
    rewrite Hper. cbn zeta. rewrite Hfetch, Hflag, Herr. done.
  - intros historical_data data info news fundamentals
      Hfetch Hflag Hdata Hinfo Hnews Hfund Hllm.
    rewrite collection_run. fold symbol period.
    rewrite bool_decide_eq_false_2 by done.
    rewrite Hper. cbn zeta.
    rewrite Hfetch, Hflag, Hnews, Hfund, Hdata. cbn [negb].
    match goal with
    | |- context [call_ollama env ?p system_prompt] =>
        destruct (Hllm p) as [data_insights Ha]; rewrite Ha, Hinfo;
        set (prompt := p)
    end.
    unfold Run.completed. eexists _, prompt.
    split; [reflexivity|].
    split; [by simplify_map_eq|]. split; [by simplify_map_eq|].
    split; [by simplify_map_eq|].
    cbn [snd calls]. by rewrite <- !app_assoc.
Qed.

End CollectionRun.

Lemma provider_failure_is_fatal_witness :
  (fst (DataCollectorAgent.process
          (Sample.collector_env (Return Sample.no_data) (Return []) (Return VNone))
          Sample.request (init "DataCollectorAgent"))
   = Return {[ "success" := VBool false;
               "error" := VStr "No data found for symbol ACME" ]} /\
   calls (snd (DataCollectorAgent.process
                 (Sample.collector_env (Return Sample.no_data) (Return [])
                    (Return VNone))
                 Sample.request (init "DataCollectorAgent")))
   = [FetchStockData "ACME" "1y"]) /\
  exists r,
    fst (DataCollectorAgent.process
           (Sample.collector_env (Return (Sample.some_data (Sample.flat 2)))
              (Return []) (Return VNone))
           Sample.request (init "DataCollectorAgent")) = Return r /\
    r !! "success" = Some (VBool true) /\
    r !! "news" = Some (VList []).
Proof.
  split.
  - destruct (provider_failure_is_fatal
                (Sample.collector_env (Return Sample.no_data) (Return [])
                   (Return VNone))
                Sample.request (init "DataCollectorAgent")) as [H _].
    + vm_compute. discriminate.
    + vm_compute. eauto.
    + apply (H Sample.no_data "No data found for symbol ACME"); reflexivity.
  - destruct (provider_failure_is_fatal
                (Sample.collector_env
                   (Return (Sample.some_data (Sample.flat 2))) (Return [])
                   (Return VNone))
                Sample.request (init "DataCollectorAgent")) as [_ H].
    + vm_compute. discriminate.
    + vm_compute. eauto.
    + destruct (H (Sample.some_data (Sample.flat 2)) (Sample.flat 2) ∅ []
                  VNone eq_refl eq_refl eq_refl eq_refl eq_refl eq_refl)
        as (r & prompt & Hr & Hok & Hnews & _).
      { intros prompt. eexists. reflexivity. }
      exists r. split; [exact Hr|]. split; [exact Hok | exact Hnews].
Defined.

(** ** Arithmetic of the indicators *)

Section IndicatorArithmetic.

Import AnalysisAgent.

Lemma Qlt_bool_true (x y : Q) : Qlt_bool x y = true <-> (x < y)%Q.
Proof.
  unfold Qlt_bool. rewrite negb_true_iff. split.
  - intros H. apply Qnot_le_lt. intros Hle.
    apply Qle_bool_iff in Hle. congruence.
  - intros H. destruct (Qle_bool y x) eqn:E; [|done].
    apply Qle_bool_iff in E. lra.
Qed.

Lemma Qlt_bool_false (x y : Q) : Qlt_bool x y = false <-> (y <= x)%Q.
Proof.
  unfold Qlt_bool. rewrite negb_false_iff. apply Qle_bool_iff.
Qed.

Lemma foldl_Qplus (xs : list Q) (acc : Q) :
  (foldl Qplus acc xs == acc + fold_right Qplus 0 xs)%Q.
Proof.
  revert acc. induction xs as [|x xs IH]; intros acc; simpl; [ring|].
  rewrite IH. ring.
Qed.








End IndicatorArithmetic.

(** ** The relative strength index *)

Section RsiFacts.

Import AnalysisAgent.

Lemma length_changes (qs : list Q) :
  length (Run.changes qs) = pred (length qs).
Proof.
  unfold Run.changes. rewrite length_zip_with.
  destruct qs; cbn [length tail pred]; lia.
Qed.

Lemma changes_drop (qs : list Q) (k : nat) :
  drop k (Run.changes qs) = Run.changes (drop k qs).
Proof.
  unfold Run.changes. rewrite zip_with_drop. f_equal.
  change (tail qs) with (drop 1 qs). change (tail (drop k qs)) with (drop 1 (drop k qs)).
  rewrite !drop_drop. f_equal. lia.
Qed.

Lemma diff_Fin (q : Q) (qs : list Q) :
  diff (Fin <$> (q :: qs)) = NaN :: (Fin <$> Run.changes (q :: qs)).
Proof.
  apply list_eq. intros [|j]; unfold diff; rewrite list_lookup_imap.
  - done.
  - rewrite !list_lookup_fmap.
    change ((q :: qs) !! S j) with (qs !! j).
    change ((NaN :: (Fin <$> Run.changes (q :: qs))) !! S j)
      with ((Fin <$> Run.changes (q :: qs)) !! j).
    rewrite list_lookup_fmap. unfold Run.changes.
    rewrite lookup_zip_with. change (tail (q :: qs)) with qs.
    destruct (qs !! j) as [b|] eqn:Hb.
    + destruct (lookup_lt_is_Some_2 (q :: qs) j) as [a Ha].
      { apply lookup_lt_Some in Hb. simpl. lia. }
      rewrite Ha. done.
    + simpl. by destruct ((q :: qs) !! j).
Qed.

Lemma gain_Fin (ds : list Q) :
  where_ (fun d => fgt d (Fin 0)) (Fin 0) (NaN :: (Fin <$> ds))
  = Fin <$> (0%Q :: (Run.gain_of <$> ds)).
Proof.
  unfold where_. rewrite !fmap_cons. f_equal.
  rewrite <- !list_fmap_compose. apply list_fmap_ext. intros i d _. simpl.
  unfold Run.gain_of. by destruct (Qlt_bool 0 d).
Qed.

Lemma loss_Fin (ds : list Q) :
  neg (where_ (fun d => flt d (Fin 0)) (Fin 0) (NaN :: (Fin <$> ds)))
  = Fin <$> (0%Q :: (Run.loss_of <$> ds)).
Proof.
  unfold neg, where_. rewrite !fmap_cons. f_equal.
  rewrite <- !list_fmap_compose. apply list_fmap_ext. intros i d _. simpl.
  unfold Run.loss_of. by destruct (Qlt_bool d 0).
Qed.

(** The latest RSI depends on the last 15 closes only: it is the RSI of
    the mean gain and the mean loss over their 14 changes. *)
Lemma latest_rsi (pre w : list Q) :
  length w = 15%nat ->
  iloc_last (RSI (Fin <$> (pre ++ w)))
  = Some (Run.rsi_of (Run.total_gain w / inject_Z (Z.of_nat 14))
                     (Run.total_loss w / inject_Z (Z.of_nat 14))).
Proof.
  intros Hw.
  assert (Hn : length (pre ++ w) = (length pre + 15)%nat)
    by by rewrite length_app, Hw.
  destruct (pre ++ w) as [|q qs] eqn:Hl; [simpl in Hn; lia|].
  assert (Hlast : drop (length pre) (q :: qs) = w).
  { rewrite <- Hl. apply drop_app_length. }
  unfold iloc_last. rewrite last_lookup, length_RSI, length_fmap, Hn.
  replace (pred (length pre + 15)) with (length pre + 14)%nat by lia.
  unfold RSI. rewrite diff_Fin, gain_Fin, loss_Fin.
  unfold div. rewrite list_lookup_fmap, lookup_zip_with.
  assert (Hlen : forall f : Q -> Q,
             length (0%Q :: (f <$> Run.changes (q :: qs)))
             = (length pre + 15)%nat).
  { intros f. simpl. rewrite length_fmap, length_changes, Hn. lia. }
  rewrite !rolling_mean_lookup_Fin by (rewrite ?Hlen; lia).
  destruct (Nat.ltb_spec (length pre + 14 + 1) 14) as [?|_]; [lia|].
  cbn [mbind option_bind fmap option_fmap option_map].
  replace (length pre + 14 + 1 - 14)%nat with (S (length pre)) by lia.
  cbn [drop].
  assert (Hwin : forall f : Q -> Q,
             take 14 (drop (length pre) (f <$> Run.changes (q :: qs)))
             = f <$> Run.changes w).
  { intros f. rewrite <- fmap_drop, changes_drop, Hlast.
    apply take_ge. rewrite length_fmap, length_changes, Hw. simpl. lia. }
  rewrite !Hwin. done.
Qed.

Lemma gain_of_cases (d : Q) :
  ((0 < d)%Q /\ Run.gain_of d = d) \/ ((d <= 0)%Q /\ Run.gain_of d = 0%Q).
Proof.
  unfold Run.gain_of. destruct (Qlt_bool 0 d) eqn:E.
  - left. by apply Qlt_bool_true in E.
  - right. by apply Qlt_bool_false in E.
Qed.

Lemma loss_of_cases (d : Q) :
  ((d < 0)%Q /\ Run.loss_of d = (- d)%Q) \/
  ((0 <= d)%Q /\ Run.loss_of d = (- 0)%Q).
Proof.
  unfold Run.loss_of. destruct (Qlt_bool d 0) eqn:E.
  - left. by apply Qlt_bool_true in E.
  - right. by apply Qlt_bool_false in E.
Qed.

Lemma sum_nonneg (xs : list Q) :
  Forall (fun x => 0 <= x)%Q xs -> (0 <= foldl Qplus 0 xs)%Q.
Proof.
  intros H. rewrite foldl_Qplus.
  induction H as [|x xs Hx _ IH]; simpl; lra.
Qed.

Lemma sum_zero (xs : list Q) :
  Forall (fun x => x == 0)%Q xs -> (foldl Qplus 0 xs == 0)%Q.
Proof.
  intros H. rewrite foldl_Qplus.
  induction H as [|x xs Hx _ IH]; simpl; lra.
Qed.

Lemma sum_pos (xs : list Q) :
  Forall (fun x => 0 <= x)%Q xs -> Exists (fun x => 0 < x)%Q xs ->
  (0 < foldl Qplus 0 xs)%Q.
Proof.
  intros H E. rewrite foldl_Qplus.
  induction H as [|x xs Hx Hxs IH]; simpl.
  - by apply Exists_nil in E.
  - apply Exists_cons in E as [E|E].
    + pose proof (sum_nonneg xs Hxs) as S. rewrite foldl_Qplus in S. lra.
    + specialize (IH E). lra.
Qed.

Lemma total_gain_nonneg (w : list Q) : (0 <= Run.total_gain w)%Q.
Proof.
  apply sum_nonneg, Forall_fmap, Forall_forall. intros d _. simpl.
  destruct (gain_of_cases d) as [[? ->]|[? ->]]; lra.
Qed.

Lemma total_loss_nonneg (w : list Q) : (0 <= Run.total_loss w)%Q.
Proof.
  apply sum_nonneg, Forall_fmap, Forall_forall. intros d _. simpl.
  destruct (loss_of_cases d) as [[? ->]|[? ->]]; lra.
Qed.

(** The changes of a window, read off its consecutive closes. *)
Lemma changes_Forall (P : Q -> Prop) (w : list Q) :
  (forall i a b, w !! i = Some a -> w !! S i = Some b -> P (b - a)%Q) ->
  Forall P (Run.changes w).
Proof.
  intros H. apply Forall_lookup. intros i d Hd.
  unfold Run.changes in Hd. apply lookup_zip_with_Some in Hd
    as (a & b & -> & Ha & Hb).
  rewrite lookup_tail in Hb. by apply (H i).
Qed.

Lemma changes_Exists (P : Q -> Prop) (w : list Q) :
  (exists i a b, w !! i = Some a /\ w !! S i = Some b /\ P (b - a)%Q) ->
  Exists P (Run.changes w).
Proof.
  intros (i & a & b & Ha & Hb & HP). apply Exists_exists.
  exists (b - a)%Q. split; [|done].
  apply list_elem_of_lookup. exists i. unfold Run.changes.
  apply lookup_zip_with_Some. exists a, b. by rewrite lookup_tail.
Qed.

Lemma rsi_of_nan (g l : Q) :
  (g == 0)%Q -> (l == 0)%Q -> Run.rsi_of g l = NaN.
Proof.
  intros Hg Hl. unfold Run.rsi_of, fdiv.
  apply Qeq_bool_iff in Hg, Hl. by rewrite Hl, Hg.
Qed.

Lemma rsi_of_full (g l : Q) :
  (0 < g)%Q -> (l == 0)%Q -> Run.rsi_of g l = Fin 100.
Proof.
  intros Hg Hl. unfold Run.rsi_of, fdiv at 2.
  apply Qeq_bool_iff in Hl. rewrite Hl.
  destruct (Qeq_bool g 0) eqn:E; [apply Qeq_bool_iff in E; lra|].
  destruct (Qlt_bool g 0) eqn:E'; [apply Qlt_bool_true in E'; lra|].
  reflexivity.
Qed.

Lemma rsi_of_finite (g l : Q) :
  (0 <= g)%Q -> (0 < l)%Q ->
  exists r, Run.rsi_of g l = Fin r /\ (0 <= r)%Q /\ (r <= 100)%Q /\
            ((g == 0)%Q -> (r == 0)%Q).
Proof.
  intros Hg Hl. unfold Run.rsi_of, fdiv at 2.
  destruct (Qeq_bool l 0) eqn:E; [apply Qeq_bool_iff in E; lra|].
  assert (Hx : (0 <= g / l)%Q).
  { apply Qle_shift_div_l; [done | lra]. }
  cbn [fadd]. unfold fdiv.
  destruct (Qeq_bool (1 + g / l) 0) eqn:E1; [apply Qeq_bool_iff in E1; lra|].
  cbn [fsub fadd fneg].
  exists (100 + - (100 / (1 + g / l)))%Q. split; [done|].
  assert (H0 : (0 <= 100 / (1 + g / l))%Q).
  { apply Qle_shift_div_l; lra. }
  assert (H1 : (100 / (1 + g / l) <= 100)%Q).
  { apply Qle_shift_div_r; lra. }
  split; [lra|]. split; [lra|].
  intros Hg0. rewrite Hg0. field. lra.
Qed.

Lemma fourteenth (x : Q) :
  ((0 <= x)%Q -> (0 <= x / inject_Z (Z.of_nat 14))%Q) /\
  ((0 < x)%Q -> (0 < x / inject_Z (Z.of_nat 14))%Q) /\
  ((x == 0)%Q -> (x / inject_Z (Z.of_nat 14) == 0)%Q).
Proof.
  change (inject_Z (Z.of_nat 14)) with (14 # 1)%Q.
  split; [|split]; intros H.
  - apply Qle_shift_div_l; lra.
  - apply Qlt_shift_div_l; lra.
  - rewrite H. field.
Qed.

(** No close of the window below the one before it: no loss at all. *)
Lemma no_fall_no_loss (w : list Q) :
  (forall i a b, w !! i = Some a -> w !! S i = Some b -> (a <= b)%Q) ->
  (Run.total_loss w == 0)%Q.
Proof.
  intros H. apply sum_zero, Forall_fmap.
  apply changes_Forall. intros i a b Ha Hb. simpl.
  specialize (H i a b Ha Hb).
  destruct (loss_of_cases (b - a)) as [[? ->]|[? ->]]; lra.
Qed.

Lemma no_rise_no_gain (w : list Q) :
  (forall i a b, w !! i = Some a -> w !! S i = Some b -> (b <= a)%Q) ->
  (Run.total_gain w == 0)%Q.
Proof.
  intros H. apply sum_zero, Forall_fmap.
  apply changes_Forall. intros i a b Ha Hb. simpl.
  specialize (H i a b Ha Hb).
  destruct (gain_of_cases (b - a)) as [[? ->]|[? ->]]; lra.
Qed.

Lemma rise_gains (w : list Q) :
  (exists i a b, w !! i = Some a /\ w !! S i = Some b /\ (a < b)%Q) ->
  (0 < Run.total_gain w)%Q.
Proof.
  intros (i & a & b & Ha & Hb & Hab). apply sum_pos.
  - apply Forall_fmap, Forall_forall. intros d _. simpl.
    destruct (gain_of_cases d) as [[? ->]|[? ->]]; lra.
  - apply Exists_fmap.
    apply (changes_Exists (fun d => 0 < Run.gain_of d)%Q).
    exists i, a, b. repeat split; try done.
    destruct (gain_of_cases (b - a)) as [[? ->]|[? ->]]; lra.
Qed.

Lemma fall_loses (w : list Q) :
  (exists i a b, w !! i = Some a /\ w !! S i = Some b /\ (b < a)%Q) ->
  (0 < Run.total_loss w)%Q.
Proof.
  intros (i & a & b & Ha & Hb & Hab). apply sum_pos.
  - apply Forall_fmap, Forall_forall. intros d _. simpl.
    destruct (loss_of_cases d) as [[? ->]|[? ->]]; lra.
  - apply Exists_fmap.
    apply (changes_Exists (fun d => 0 < Run.loss_of d)%Q).
    exists i, a, b. repeat split; try done.
    destruct (loss_of_cases (b - a)) as [[? ->]|[? ->]]; lra.
Qed.

(** The RSI field of the technical indicators, from the last 15 closes. *)
Lemma rsi_field (dates : list Z) (pre w : list Q) :
  length w = 15%nat -> (50 <= length (pre ++ w))%nat ->
  exists df ta,
    technical_indicators dates (Fin <$> (pre ++ w)) = Return (df, ta) /\
    ta !! "rsi" =
      Some (VFloat
              (Run.rsi_of (Run.total_gain w / inject_Z (Z.of_nat 14))
                          (Run.total_loss w / inject_Z (Z.of_nat 14)))).
Proof.
  intros Hw Hn.
  destruct (technical_indicators_enough dates (Fin <$> (pre ++ w)))
    as (lc & m20 & m50 & r & _ & _ & _ & Hr & Hta);
    [by rewrite length_fmap|].
  rewrite latest_rsi in Hr by done. injection Hr as <-.
  eexists _, _. split; [exact Hta|]. by simplify_map_eq.
Qed.

(** C3, evaluated on the code.  For a series of at least 50 closes the RSI
    is computed without an exception.  When the last 15 closes never fall,
    so that the average loss is zero, the RSI is 100 if one of them rises
    (in particular when they rise strictly), but NaN, not 100, when they are
    all equal: zero over zero.  When they fall strictly the RSI is 0. *)
Theorem rsi_without_losses (dates : list Z) (pre w : list Q) :
  length w = 15%nat -> (50 <= length (pre ++ w))%nat ->
  exists df ta rsi,
    technical_indicators dates (Fin <$> (pre ++ w)) = Return (df, ta) /\
    ta !! "rsi" = Some (VFloat rsi) /\
    ((forall i a b, w !! i = Some a -> w !! S i = Some b -> (a < b)%Q) ->
     rsi = Fin 100) /\
    ((forall i a b, w !! i = Some a -> w !! S i = Some b -> (a <= b)%Q) ->
     (exists i a b, w !! i = Some a /\ w !! S i = Some b /\ (a < b)%Q) ->
     rsi = Fin 100) /\
    ((forall i a b, w !! i = Some a -> w !! S i = Some b -> (a == b)%Q) ->
     rsi = NaN) /\
    ((forall i a b, w !! i = Some a -> w !! S i = Some b -> (b < a)%Q) ->
     feq rsi (Fin 0)).
Proof.
  intros Hw Hn.
  destruct (rsi_field dates pre w Hw Hn) as (df & ta & Hta & Hrsi).
  eexists df, ta, _. split; [exact Hta|]. split; [exact Hrsi|].
  assert (Hfirst : exists a b, w !! 0%nat = Some a /\ w !! 1%nat = Some b).
  { destruct w as [|a [|b w]]; simpl in Hw; try lia. by exists a, b. }
  destruct Hfirst as (a0 & b0 & Ha0 & Hb0).
  assert (Hfull :
    (forall i a b, w !! i = Some a -> w !! S i = Some b -> (a <= b)%Q) ->
    (exists i a b, w !! i = Some a /\ w !! S i = Some b /\ (a < b)%Q) ->
    Run.rsi_of (Run.total_gain w / inject_Z (Z.of_nat 14))
               (Run.total_loss w / inject_Z (Z.of_nat 14)) = Fin 100).
  { intros Hup Hrise. apply rsi_of_full.
    - by apply fourteenth, rise_gains.
    - by apply fourteenth, no_fall_no_loss. }
  split; [|split; [exact Hfull|split]].
  - intros Hinc. apply Hfull.
    + intros i a b Ha Hb. apply Qlt_le_weak. by apply (Hinc i).
    + exists 0%nat, a0, b0. repeat split; try done. by apply (Hinc 0%nat).
  - intros Hflat. apply rsi_of_nan.
    + apply fourteenth, no_rise_no_gain. intros i a b Ha Hb.
      rewrite (Hflat i a b Ha Hb). lra.
    + apply fourteenth, no_fall_no_loss. intros i a b Ha Hb.
      rewrite (Hflat i a b Ha Hb). lra.
  - intros Hdec.
    destruct (rsi_of_finite (Run.total_gain w / inject_Z (Z.of_nat 14))
                (Run.total_loss w / inject_Z (Z.of_nat 14)))
      as (r & -> & _ & _ & Hzero).
    + apply fourteenth, total_gain_nonneg.
    + apply fourteenth, fall_loses.
      exists 0%nat, a0, b0. repeat split; try done. by apply (Hdec 0%nat).
    + simpl. apply Hzero, fourteenth, no_rise_no_gain.
      intros i a b Ha Hb. apply Qlt_le_weak. by apply (Hdec i).
Qed.

Lemma rsi_without_losses_witness :
  exists df ta,
    technical_indicators []
      (Fin <$> (replicate 35 5%Q ++ replicate 15 5%Q)) = Return (df, ta) /\
    ta !! "rsi" = Some (VFloat NaN).
Proof.
  destruct (rsi_without_losses [] (replicate 35 5%Q) (replicate 15 5%Q))
    as (df & ta & rsi & Hta & Hrsi & _ & _ & Hflat & _);
    [reflexivity | simpl; lia |].
  exists df, ta. split; [exact Hta|].
  rewrite Hrsi. do 2 f_equal. apply Hflat.
  intros i a b Ha Hb.
  apply lookup_replicate in Ha as [-> _].
  apply lookup_replicate in Hb as [-> _]. reflexivity.
Defined.

(** C4, evaluated on the code.  For a series of at least 50 closes the
    latest RSI lies in the closed interval from 0 to 100 as soon as two
    consecutive closes among the last 15 differ; when the last 15 closes are
    all equal it is NaN, which lies in no interval. *)
Theorem rsi_bounded_unless_flat (dates : list Z) (pre w : list Q) :
  length w = 15%nat -> (50 <= length (pre ++ w))%nat ->
  exists df ta rsi,
    technical_indicators dates (Fin <$> (pre ++ w)) = Return (df, ta) /\
    ta !! "rsi" = Some (VFloat rsi) /\
    ((exists i a b, w !! i = Some a /\ w !! S i = Some b /\ ~ (a == b)%Q) ->
     between 0 100 rsi) /\
    ((forall i a b, w !! i = Some a -> w !! S i = Some b -> (a == b)%Q) ->
     rsi = NaN /\ ~ between 0 100 rsi).
Proof.
  intros Hw Hn.
  destruct (rsi_field dates pre w Hw Hn) as (df & ta & Hta & Hrsi).
  eexists df, ta, _. split; [exact Hta|]. split; [exact Hrsi|].
  pose proof (fourteenth (Run.total_gain w)) as (Hg0 & Hg1 & Hg2).
  pose proof (fourteenth (Run.total_loss w)) as (Hl0 & Hl1 & Hl2).
  split.
  - intros (i & a & b & Ha & Hb & Hne).
    destruct (Qlt_le_dec 0 (Run.total_loss w)) as [Hloss|Hloss].
    + destruct (rsi_of_finite (Run.total_gain w / inject_Z (Z.of_nat 14))
                  (Run.total_loss w / inject_Z (Z.of_nat 14)))
        as (r & -> & Hlo & Hhi & _);
        [apply Hg0, total_gain_nonneg | by apply Hl1 | done].
    + assert (Hzero : (Run.total_loss w == 0)%Q).
      { pose proof (total_loss_nonneg w). lra. }
      rewrite rsi_of_full; [simpl; lra | | by apply Hl2].
      apply Hg1, rise_gains. exists i, a, b. repeat split; try done.
      destruct (Q_dec a b) as [[Hlt|Hgt]|Heq]; [done| |done].
      assert (0 < Run.total_loss w)%Q; [|lra].
      apply fall_loses. by exists i, a, b.
  - intros Hflat.
    assert (Hnan : Run.rsi_of (Run.total_gain w / inject_Z (Z.of_nat 14))
                     (Run.total_loss w / inject_Z (Z.of_nat 14)) = NaN).
    { apply rsi_of_nan.
      - apply Hg2, no_rise_no_gain. intros i a b Ha Hb.
        rewrite (Hflat i a b Ha Hb). lra.
      - apply Hl2, no_fall_no_loss. intros i a b Ha Hb.
        rewrite (Hflat i a b Ha Hb). lra. }
    rewrite Hnan. split; [done|]. by intros [].
Qed.

Lemma rsi_bounded_unless_flat_witness :
  exists df ta rsi,
    technical_indicators []
      (Fin <$> (replicate 35 5%Q ++ replicate 15 5%Q)) = Return (df, ta) /\
    ta !! "rsi" = Some (VFloat rsi) /\
    ~ between 0 100 rsi.
Proof.
  destruct (rsi_bounded_unless_flat [] (replicate 35 5%Q) (replicate 15 5%Q))
    as (df & ta & rsi & Hta & Hrsi & _ & Hflat);
    [reflexivity | simpl; lia |].
  exists df, ta, rsi. split; [exact Hta|]. split; [exact Hrsi|].
  apply Hflat. intros i a b Ha Hb.
  apply lookup_replicate in Ha as [-> _].
  apply lookup_replicate in Hb as [-> _]. reflexivity.
Defined.

(** The whole stage on fifty days at one closing price: the reported RSI is
    NaN. *)
Example flat_series_reports_nan :
  match fst (process Sample.analysis_env (Sample.bundle (Sample.flat 50))
               (init "AnalysisAgent")) with
  | Return r =>
      match r !! "technical_indicators" with
      | Some (VDict ta) => ta !! "rsi"
      | _ => None
      end
  | Raise _ => None
  end = Some (VFloat NaN).
Proof. vm_compute. reflexivity. Qed.

End RsiFacts.

(** ** The collection stage: requests, periods, results *)

Section CollectionRequests.

Import DataCollectorAgent.

Variable env : Collaborators.

(** X1.  A request without a symbol, or with the empty symbol, is answered
    with the failure mapping "Stock symbol is required", and no provider is
    called. *)
Theorem symbol_is_required (input_data : Input) (self : agent) :
  in_symbol input_data = None \/ in_symbol input_data = Some "" ->
  fst (process env input_data self)
  = Return {[ "success" := VBool false;
              "error" := VStr "Stock symbol is required" ]} /\
  calls (snd (process env input_data self)) = calls self.
Proof.
  intros H. rewrite collection_run.
  assert (E : default "" (in_symbol input_data) = "")
    by (destruct H as [-> | ->]; done).
  rewrite E. done.
Qed.

(** The calls a stage has added start with the price fetch for [p]. *)
Lemma collection_first_call (input_data : Input) (self : agent)
    (p d : string) :
  default "" (in_symbol input_data) <> "" ->
  (if bool_decide (is_Some (TIME_PERIODS env !! default "1y" (in_period input_data)))
   then default "1y" (in_period input_data) else "1y") = p ->
  TIME_PERIODS env !! p = Some d ->
  (exists rest,
      calls (snd (process env input_data self))
      = calls self ++ FetchStockData (default "" (in_symbol input_data)) p :: rest) /\
  (forall r,
      fst (process env input_data self) = Return r ->
      r !! "success" = Some (VBool true) ->
      r !! "period" = Some (VStr p) /\
      r !! "period_description" = Some (VStr d)).
Proof.
  intros Hsym Hp Hd. rewrite collection_run. cbn zeta. rewrite Hp.
  rewrite bool_decide_eq_false_2 by done. rewrite Hd.
  unfold Run.failed, Run.completed.
  split.
  - repeat case_match; cbn [snd calls]; rewrite <- ?app_assoc;
      eexists; reflexivity.
  - intros r. repeat case_match; cbn [fst]; intros [= <-] Hok;
      try (unfold failure in Hok; rewrite lookup_insert_eq in Hok;
           discriminate Hok);
      split; by simplify_map_eq.
Qed.

(** X2.  A period that the table does not know is silently replaced by the
    1-year code: the provider is asked for 1y, and a successful result
    reports the period 1y with its description.  A period of the table is
    kept as it is.  When the table has no entry for 1y either, the lookup
    of the description fails before any provider is called. *)
Theorem unknown_period_defaults_to_1y (input_data : Input) (self : agent) :
  let symbol := default "" (in_symbol input_data) in
  let requested := default "1y" (in_period input_data) in
  symbol <> "" ->
  (forall d,
      TIME_PERIODS env !! requested = None ->
      TIME_PERIODS env !! "1y" = Some d ->
      (exists rest,
          calls (snd (process env input_data self))
          = calls self ++ FetchStockData symbol "1y" :: rest) /\
      (forall r,
          fst (process env input_data self) = Return r ->
          r !! "success" = Some (VBool true) ->
          r !! "period" = Some (VStr "1y") /\
          r !! "period_description" = Some (VStr d))) /\
  (forall d,
      TIME_PERIODS env !! requested = Some d ->
      (exists rest,
          calls (snd (process env input_data self))
          = calls self ++ FetchStockData symbol requested :: rest) /\
      (forall r,
          fst (process env input_data self) = Return r ->
          r !! "success" = Some (VBool true) ->
          r !! "period" = Some (VStr requested) /\
          r !! "period_description" = Some (VStr d))) /\
  (TIME_PERIODS env !! requested = None ->
   TIME_PERIODS env !! "1y" = None ->
   fst (process env input_data self)
   = Return {[ "success" := VBool false; "error" := VStr "'1y'" ]} /\
   calls (snd (process env input_data self)) = calls self).
Proof.
  intros symbol requested Hsym. subst symbol requested.
  split; [|split].
  - intros d Hnone H1y. apply collection_first_call; try done.
    rewrite Hnone. by rewrite bool_decide_eq_false_2 by by intros [? ?].
  - intros d Hsome. apply collection_first_call; try done.
    rewrite Hsome. by rewrite bool_decide_eq_true_2 by eauto.
  - intros Hnone H1y. rewrite collection_run. cbn zeta.
    rewrite bool_decide_eq_false_2 by done.
    rewrite Hnone. rewrite (bool_decide_eq_false_2 (is_Some None))
      by by intros [? ?].
    rewrite H1y. done.
Qed.

End CollectionRequests.

Lemma symbol_is_required_witness :
  fst (DataCollectorAgent.process
         (Sample.collector_env (Return Sample.no_data) (Return []) (Return VNone))
         {| DataCollectorAgent.in_symbol := None;
            DataCollectorAgent.in_period := Some "1y" |}
         (init "DataCollectorAgent"))
  = Return {[ "success" := VBool false;
              "error" := VStr "Stock symbol is required" ]} /\
  calls (snd (DataCollectorAgent.process
                (Sample.collector_env (Return Sample.no_data) (Return [])
                   (Return VNone))
                {| DataCollectorAgent.in_symbol := None;
                   DataCollectorAgent.in_period := Some "1y" |}
                (init "DataCollectorAgent"))) = [].
Proof.
  apply (symbol_is_required
           (Sample.collector_env (Return Sample.no_data) (Return [])
              (Return VNone))
           {| DataCollectorAgent.in_symbol := None;
              DataCollectorAgent.in_period := Some "1y" |}
           (init "DataCollectorAgent")).
  left. reflexivity.
Defined.

Lemma unknown_period_defaults_to_1y_witness :
  exists rest,
    calls (snd (DataCollectorAgent.process
                  (Sample.collector_env (Return Sample.no_data) (Return [])
                     (Return VNone))
                  {| DataCollectorAgent.in_symbol := Some "ACME";
                     DataCollectorAgent.in_period := Some "5y" |}
                  (init "DataCollectorAgent")))
    = [] ++ FetchStockData "ACME" "1y" :: rest.
Proof.
  destruct (unknown_period_defaults_to_1y
              (Sample.collector_env (Return Sample.no_data) (Return [])
                 (Return VNone))
              {| DataCollectorAgent.in_symbol := Some "ACME";
                 DataCollectorAgent.in_period := Some "5y" |}
              (init "DataCollectorAgent")) as [H _].
  - vm_compute. discriminate.
  - destruct (H "1 Year") as [Hcalls _]; [reflexivity | reflexivity |].
    exact Hcalls.
Defined.

Section CollectionResults.

Import DataCollectorAgent.

Variable env : Collaborators.

(** What suffices for a successful collection. *)
Lemma collection_success (input_data : Input) (self : agent)
    (d : string) (hd : StockData) (data : list Row) (info : dict)
    (news : list dict) (fundamentals : value) :
  let symbol := default "" (in_symbol input_data) in
  let period :=
    if bool_decide (is_Some (TIME_PERIODS env !! default "1y" (in_period input_data)))
    then default "1y" (in_period input_data) else "1y" in
  symbol <> "" ->
  TIME_PERIODS env !! period = Some d ->
  fetch_stock_data env symbol period = Return hd ->
  sd_success hd = true ->
  sd_data hd = Some data ->
  sd_info hd = Some info ->
  fetch_news env symbol = Return news ->
  get_stock_fundamentals env symbol = Return fundamentals ->
  (exists insights,
      call_ollama env
        (prompt_text env symbol d (length data) (length news)
           (default "unknown" (sd_source hd))) system_prompt
      = Return insights) ->
  exists r, fst (process env input_data self) = Return r /\
            r !! "success" = Some (VBool true).
Proof.
  intros symbol period Hsym Hd Hfetch Hflag Hdata Hinfo Hnews Hfund
    [insights Hllm].
  rewrite collection_run. fold symbol period. cbn zeta.
  rewrite bool_decide_eq_false_2 by done.
  rewrite Hd, Hfetch, Hflag, Hnews, Hfund, Hdata, Hllm, Hinfo.
  eexists. split; [reflexivity|]. by simplify_map_eq.
Qed.

(** X3.  In a successful result the fields chart_data and company_info are
    copies of the data and the info held under historical_data, and the
    provider's success flag stored there is true. *)
Theorem collection_result_aliases (input_data : Input) (self : agent)
    (r : dict) :
  fst (process env input_data self) = Return r ->
  r !! "success" = Some (VBool true) ->
  exists hd data info,
    r !! "historical_data" = Some (VDict hd) /\
    hd !! "success" = Some (VBool true) /\
    hd !! "data" = Some data /\
    r !! "chart_data" = Some data /\
    hd !! "info" = Some info /\
    r !! "company_info" = Some info.
Proof.
  rewrite collection_run. cbn zeta. unfold Run.failed, Run.completed.
  repeat case_match; cbn [fst]; intros [= <-] Hok;
    try (unfold failure in Hok; rewrite lookup_insert_eq in Hok;
         discriminate Hok).
  all: match goal with H : negb (sd_success ?h) = false |- _ =>
         apply negb_false_iff in H; rewrite H end.
  all: eexists _, _, _; repeat split; by simplify_map_eq.
Qed.

(** X4.  The collection stage ends successfully exactly when the symbol is
    not empty, the period resolves in the table, the price provider answers
    with the success flag on and with data and info, the news and the
    fundamentals providers return, and the text-generation service
    returns. *)
Theorem collection_succeeds_iff (input_data : Input) (self : agent) :
  let symbol := default "" (in_symbol input_data) in
  let period :=
    if bool_decide (is_Some (TIME_PERIODS env !! default "1y" (in_period input_data)))
    then default "1y" (in_period input_data) else "1y" in
  (exists r, fst (process env input_data self) = Return r /\
             r !! "success" = Some (VBool true)) <->
  (symbol <> "" /\
   exists d hd data info news fundamentals insights,
     TIME_PERIODS env !! period = Some d /\
     fetch_stock_data env symbol period = Return hd /\
     sd_success hd = true /\
     sd_data hd = Some data /\
     sd_info hd = Some info /\
     fetch_news env symbol = Return news /\
     get_stock_fundamentals env symbol = Return fundamentals /\
     call_ollama env
       (prompt_text env symbol d (length data) (length news)
          (default "unknown" (sd_source hd))) system_prompt
     = Return insights).
Proof.
  intros symbol period. rewrite collection_run. fold symbol period.
  cbn zeta. unfold Run.failed, Run.completed. split.
  - intros (r & Hr & Hok). revert Hr.
    repeat case_match; cbn [fst]; intros [= <-];
      try (unfold failure in Hok; rewrite lookup_insert_eq in Hok;
           discriminate Hok).
    all: split;
      [match goal with H : bool_decide (_ = "") = false |- _ =>
         by apply bool_decide_eq_false in H end|].
    all: match goal with H : negb (sd_success ?h) = false |- _ =>
           apply negb_false_iff in H end.
    all: by eexists _, _, _, _, _, _, _.
  - intros (Hsym & d & hd & data & info & news & f & insights
            & Hd & Hfetch & Hflag & Hdata & Hinfo & Hnews & Hfund & Hllm).
    rewrite bool_decide_eq_false_2 by done.
    rewrite Hd, Hfetch, Hflag, Hnews, Hfund, Hdata, Hllm, Hinfo.
    eexists. split; [reflexivity|]. by simplify_map_eq.
Qed.

(** X5.  The stage never raises: it returns a mapping, and the agent holds
    what it returned.  After a success the status is completed, the held
    result is the returned mapping and the held error is left as it was;
    after a failure the returned mapping has exactly the fields success
    (false) and error, the status is error, the held error is the message,
    and the held result is left as it was. *)
Theorem collection_outcome_is_held (input_data : Input) (self : agent) :
  exists r self',
    process env input_data self = (Return r, self') /\
    name self' = name self /\
    ((r !! "success" = Some (VBool true) /\
      status self' = "completed" /\
      result self' = Some r /\
      error self' = error self) \/
     (exists msg,
         r = {[ "success" := VBool false; "error" := VStr msg ]} /\
         status self' = "error" /\
         error self' = Some msg /\
         result self' = result self)).
Proof.
  rewrite collection_run. cbn zeta. unfold Run.failed, Run.completed.
  repeat case_match; eexists _, _; (split; [reflexivity|]);
    (split; [reflexivity|]);
    first [ right; eexists; repeat split; reflexivity
          | left; repeat split; by simplify_map_eq ].
Qed.

End CollectionResults.

(** ** The analysis stage: outcomes *)

Section AnalysisOutcomes.

Import AnalysisAgent.

Variable env : Collaborators.

(** What suffices for a successful analysis. *)
Lemma analysis_success (input_data : Input) (self : agent)
    (dates : list Z) (df : DataFrame) (ta : dict) :
  in_success input_data = Some true ->
  price_series input_data <> [] ->
  to_datetime_column (to_datetime env) (Date <$> price_series input_data)
  = Return dates ->
  technical_indicators dates
    ((fun row => Fin (Close row)) <$> price_series input_data)
  = Return (df, ta) ->
  (exists analysis,
      call_ollama env
        (prompt_text env (default "" (in_symbol input_data))
           (company_information input_data) ta
           (default [] (in_news input_data))
           (default "" (in_period_description input_data))
           (Close <$> price_series input_data)) system_prompt
      = Return analysis) ->
  exists r, fst (process env input_data self) = Return r /\
            r !! "success" = Some (VBool true).
Proof.
  intros Hs Hne Hd Hta [analysis Hllm].
  rewrite process_run. cbn zeta. rewrite Hs. cbn [default negb].
  destruct (price_series input_data) as [|r0 rows'] eqn:Hrows; [done|].
  cbn [is_empty]. rewrite Hd, Hta, Hllm.
  eexists. split; [reflexivity|]. by simplify_map_eq.
Qed.


(** X7.  The stage never raises: it returns a mapping, and the agent holds
    what it returned.  After a success the status is completed, the held
    result is the returned mapping and the held error is left as it was;
    after a failure the returned mapping has exactly the fields success
    (false) and error, the status is error, the held error is the message
    and the held result is left as it was.  The only collaborator the stage
    ever calls is the text-generation service, at most once. *)
Theorem analysis_outcome_is_held (input_data : Input) (self : agent) :
  exists r self',
    process env input_data self = (Return r, self') /\
    name self' = name self /\
    ((r !! "success" = Some (VBool true) /\
      status self' = "completed" /\
      result self' = Some r /\
      error self' = error self) \/
     (exists msg,
         r = {[ "success" := VBool false; "error" := VStr msg ]} /\
         status self' = "error" /\
         error self' = Some msg /\
         result self' = result self)) /\
    (calls self' = calls self \/
     exists prompt,
       calls self' = calls self ++ [CallOllama prompt system_prompt]).
Proof.
  rewrite process_run. cbn zeta. unfold Run.failed, Run.completed.
  repeat case_match; eexists _, _; (split; [reflexivity|]);
    (split; [reflexivity|]);
    (split; [first [ right; eexists; repeat split; reflexivity
                   | left; repeat split; by simplify_map_eq ]|]);
    first [ by left | right; eexists; reflexivity ].
Qed.

(** X8.  A successful result has exactly eleven fields.  It echoes the
    symbol (the empty text when the input has none), the period (None when
    the input has none) and the reply of the text-generation service, and
    its company information is the info of the historical data when that is
    present and not empty, and the alternate company_info field (or the
    empty mapping) otherwise. *)
Theorem analysis_result_fields (input_data : Input) (self : agent)
    (r : dict) :
  fst (process env input_data self) = Return r ->
  r !! "success" = Some (VBool true) ->
  dom r = {[ "success"; "symbol"; "period"; "period_description";
             "company_info"; "analysis"; "recommendation"; "confidence";
             "technical_indicators"; "chart_data"; "timestamp" ]} /\
  r !! "symbol" = Some (VStr (default "" (in_symbol input_data))) /\
  r !! "period" = Some (from_option VStr VNone (in_period input_data)) /\
  (exists prompt analysis,
      call_ollama env prompt system_prompt = Return analysis /\
      r !! "analysis" = Some (VStr analysis)) /\
  (forall info,
      in_historical_data input_data ≫= hd_info = Some info -> info <> ∅ ->
      r !! "company_info" = Some (VDict info)) /\
  (default ∅ (in_historical_data input_data ≫= hd_info) = ∅ ->
   r !! "company_info"
   = Some (VDict (default ∅ (in_company_info input_data)))).
Proof.
  rewrite process_run. cbn zeta. unfold Run.failed, Run.completed.
  repeat case_match; cbn [fst]; intros [= <-] Hok;
    try (unfold failure in Hok; rewrite lookup_insert_eq in Hok;
         discriminate Hok).
  split; [rewrite !dom_insert_L, dom_singleton_L; set_solver|].
  split; [by simplify_map_eq|]. split; [by simplify_map_eq|].
  split; [eexists _, _; split; [eassumption | by simplify_map_eq]|].
  unfold company_information.
  split.
  - intros info Hinfo Hne. simplify_map_eq.
    destruct (in_historical_data input_data) as [[hdata hinfo]|];
      simpl in *; [|done]. subst hinfo. simpl.
    by rewrite bool_decide_eq_false_2.
  - intros Hempty. simplify_map_eq.
    destruct (in_historical_data input_data) as [[hdata hinfo]|];
      simpl in *.
    + rewrite Hempty. by rewrite bool_decide_eq_true_2.
    + by rewrite bool_decide_eq_true_2.
Qed.

End AnalysisOutcomes.

Lemma collection_result_aliases_witness :
  exists r hd data info,
    fst (DataCollectorAgent.process
           (Sample.collector_env (Return (Sample.some_data (Sample.flat 2)))
              (Return []) (Return VNone))
           Sample.request (init "DataCollectorAgent")) = Return r /\
    r !! "historical_data" = Some (VDict hd) /\
    hd !! "data" = Some data /\
    r !! "chart_data" = Some data /\
    hd !! "info" = Some info /\
    r !! "company_info" = Some info.
Proof.
  destruct (collection_success
              (Sample.collector_env
                 (Return (Sample.some_data (Sample.flat 2)))
                 (Return []) (Return VNone))
              Sample.request (init "DataCollectorAgent")
              "1 Year" (Sample.some_data (Sample.flat 2)) (Sample.flat 2)
              ∅ [] VNone) as (r & E & Hok);
    [vm_compute; discriminate | reflexivity | reflexivity | reflexivity
    | reflexivity | reflexivity | reflexivity | reflexivity
    | eexists; reflexivity |].
  destruct (collection_result_aliases _ _ _ r E Hok)
    as (hd & data & info & H1 & _ & H2 & H3 & H4 & H5).
  exists r, hd, data, info. repeat split; assumption.
Defined.

Lemma analysis_result_fields_witness :
  exists r,
    fst (AnalysisAgent.process Sample.analysis_env
           (Sample.bundle (Sample.flat 3)) (init "AnalysisAgent")) = Return r /\
    r !! "symbol" = Some (VStr "ACME") /\
    r !! "period" = Some (VStr "1y").
Proof.
  edestruct (analysis_success Sample.analysis_env
               (Sample.bundle (Sample.flat 3)) (init "AnalysisAgent")
               [20240101; 20240102; 20240103]%Z) as (r & E & Hok);
    [reflexivity | vm_compute; discriminate | vm_compute; reflexivity
    | vm_compute; reflexivity | eexists; reflexivity |].
  destruct (analysis_result_fields Sample.analysis_env _ _ r E Hok)
    as (_ & Hsym & Hper & _).
  exists r. repeat split; assumption.
Defined.

(** ** Moving-average signals and the RSI in closed form *)

Section IndicatorSignals.

Import AnalysisAgent.










End IndicatorSignals.

(** ** Monotone runs of closes *)

Section Momentum.

Import AnalysisAgent.























End Momentum.

(** ** Replies written in the format the prompt asks for *)

Section ReplyFormat.


















End ReplyFormat.

(** ** The moving averages drawn on the chart *)

Section ChartValues.

Import AnalysisAgent.



(** X16.  The moving-average fields of a chart point depend on the record
    through its date only: two records whose dates parse alike get the same
    ma20 and ma50 fields, or both lack them, whatever their closes. *)
Theorem same_day_same_averages (parse : string -> outcome Z)
    (df : DataFrame) (row row' : Row) :
  parse (Date row) = parse (Date row') ->
  chart_point parse df row !! "ma20" = chart_point parse df row' !! "ma20" /\
  chart_point parse df row !! "ma50" = chart_point parse df row' !! "ma50".
Proof.
  intros Hsame. unfold chart_point.
  assert (Hidx : index_of_date parse (df_Date df) (Date row)
                 = index_of_date parse (df_Date df) (Date row')).
  { unfold index_of_date. by rewrite Hsame. }
  split.
  - rewrite !(add_ma_other _ _ "ma50") by done.
    destruct (df_MA20 df) as [ma|].
    + rewrite !add_ma_key by by apply chart_point_base.
      by rewrite Hidx.
    + cbn [add_ma]. by rewrite !chart_point_base.
  - destruct (df_MA50 df) as [ma|].
    + rewrite !add_ma_key
        by (rewrite add_ma_other by done; by apply chart_point_base).
      by rewrite Hidx.
    + cbn [add_ma]. rewrite !add_ma_other by done.
      by rewrite !chart_point_base.
Qed.


Lemma same_day_same_averages_witness :
  chart_point Sample.parse_iso
    {| df_Date := [20240101; 20240102]%Z; df_Close := [Fin 5; Fin 7];
       df_MA20 := Some [Fin 5; Fin 6]; df_MA50 := Some [NaN; NaN];
       df_RSI := None |}
    (Sample.row 1 7) !! "ma20"
  = chart_point Sample.parse_iso
      {| df_Date := [20240101; 20240102]%Z; df_Close := [Fin 5; Fin 7];
         df_MA20 := Some [Fin 5; Fin 6]; df_MA50 := Some [NaN; NaN];
         df_RSI := None |}
      (Sample.row 1 9) !! "ma20".
Proof.
  apply (same_day_same_averages Sample.parse_iso _ (Sample.row 1 7)
           (Sample.row 1 9)).
  reflexivity.
Defined.

End ChartValues.

(** ** The order in which the collection stage calls its providers *)

Section CollectionCalls.

Import DataCollectorAgent.

Variable env : Collaborators.

Local Ltac ends_with prompt cs :=
  exists prompt, cs;
  unfold Run.failed, Run.completed, failure; cbn [fst snd calls];
  split;
  [ by rewrite ?app_nil_r, <- ?app_assoc
  | split;
    [ by eexists
    | intros r [= <-] Hs; first [ reflexivity | by simplify_map_eq ] ] ].

(** X17.  Whatever the request and the answers, the calls a run adds are an
    initial part of the sequence price provider, news provider,
    fundamentals provider, text-generation service, each called once with
    the requested symbol: no later collaborator is called before an earlier
    one, and a run that ends successfully has made all four calls. *)
Theorem collection_calls_in_order (input_data : Input) (self : agent) :
  let symbol := default "" (in_symbol input_data) in
  let period :=
    if bool_decide (is_Some (TIME_PERIODS env !! default "1y" (in_period input_data)))
    then default "1y" (in_period input_data) else "1y" in
  exists prompt cs,
    calls (snd (process env input_data self)) = calls self ++ cs /\
    cs `prefix_of` [FetchStockData symbol period; FetchNews symbol;
                    GetStockFundamentals symbol;
                    CallOllama prompt system_prompt] /\
    (forall r,
        fst (process env input_data self) = Return r ->
        r !! "success" = Some (VBool true) ->
        cs = [FetchStockData symbol period; FetchNews symbol;
              GetStockFundamentals symbol;
              CallOllama prompt system_prompt]).
Proof.
  intros symbol period. rewrite collection_run. cbv zeta.
  fold symbol. fold period.
  destruct (bool_decide (symbol = "")); [ends_with "" (@nil call)|].
  destruct (TIME_PERIODS env !! period) as [d|];
    [|ends_with "" (@nil call)].
  destruct (fetch_stock_data env symbol period) as [hd|msg];
    [|ends_with "" [FetchStockData symbol period]].
  destruct (negb (sd_success hd)).
  { destruct (sd_error hd); ends_with "" [FetchStockData symbol period]. }
  destruct (fetch_news env symbol) as [news|msg];
    [|ends_with "" [FetchStockData symbol period; FetchNews symbol]].
  destruct (get_stock_fundamentals env symbol) as [fundamentals|msg];
    [|ends_with "" [FetchStockData symbol period; FetchNews symbol;
                    GetStockFundamentals symbol]].
  destruct (sd_data hd) as [data|];
    [|ends_with "" [FetchStockData symbol period; FetchNews symbol;
                    GetStockFundamentals symbol]].
  set (prompt := prompt_text env symbol d (length data) (length news)
                   (default "unknown" (sd_source hd))).
  destruct (call_ollama env prompt system_prompt) as [insights|msg];
    [|ends_with prompt [FetchStockData symbol period; FetchNews symbol;
                        GetStockFundamentals symbol;
                        CallOllama prompt system_prompt]].
  destruct (sd_info hd) as [info|];
    ends_with prompt [FetchStockData symbol period; FetchNews symbol;
                      GetStockFundamentals symbol;
                      CallOllama prompt system_prompt].
Qed.

End CollectionCalls.

(** ** The news part of the prompt *)

Section NewsSummary.

Variable render : value -> string.



End NewsSummary.

